(** * CalMate ([app.py]): the free-text calorie resolver and the suggestion helpers

    A shallow embedding of the pure core of [app.py]:
    [extract_quantity], [normalize_food_name], [estimate_calories_free_text]
    (the spec's [resolve]), [generate_alternatives] and
    [activity_suggestions], together with the pieces of the Python
    standard library they call ([str.strip], [str.lower], the three
    regular expressions, [difflib.get_close_matches]); and the callers:
    the handlers of the buttons of [auth_panel] and [dashboard] and the
    entry point, as functions on the file and the session state.

    Strings.  A Python [str] is a sequence of code points.  A [string] of
    this development is such a sequence with every code point below 256,
    one [ascii] per code point; the character classes below are the ones
    CPython uses on that range ([str.isspace], [\s], [\d], [\w],
    [str.lower]).  The tip texts of the suggestion helpers are only ever
    compared for equality; they are written as the bytes of the source
    file.

    Exceptions.  The operations that can raise in Python (subscripting a
    dict or a list, [int] on a string) return a [result]; the functions of
    [app.py] thread it with a bind.

    Numbers.  Python's [int] is [Z].  The similarity scores of [difflib]
    are floats of the form [2.0 * m / t]; they are kept as the exact
    fractions [2m / t], which compare with each other and with the cutoff
    0.7 as the floats do as long as the phrase has fewer than [2^26]
    characters (two different fractions then differ by more than the
    rounding error of a double). *)

From Stdlib Require Import String Ascii List ZArith NArith QArith Lia Bool Arith.
From Equations Require Import Equations.
From Equations.Prop Require Logic.
Import ListNotations.
Close Scope Q_scope.
Local Open Scope string_scope.
Local Open Scope bool_scope.

(* ===================================================================== *)
(** ** Exceptions as values                                               *)
(* ===================================================================== *)

Inductive exn : Type := KeyError | ValueError | IndexError.

Inductive result (A : Type) : Type :=
| Ok (a : A)
| Raise (e : exn).
Arguments Ok {A} a.
Arguments Raise {A} e.

Definition bind {A B : Type} (m : result A) (k : A -> result B) : result B :=
  match m with
  | Ok a => k a
  | Raise e => Raise e
  end.

Notation "x <- m ;; k" := (bind m (fun x => k))
  (at level 61, m at next level, right associativity).

(* ===================================================================== *)
(** ** Python primitives on strings                                       *)
(* ===================================================================== *)

Module Py.

Definition code (c : ascii) : N := N_of_ascii c.

Definition in_range (lo hi : N) (c : ascii) : bool :=
  ((lo <=? code c) && (code c <=? hi))%N.

(** [str.isspace], which is also the class [\s] of [re] on [str]. *)
Definition isspace (c : ascii) : bool :=
  in_range 9 13 c || in_range 28 32 c
  || (code c =? 133)%N || (code c =? 160)%N.

(** The class [\d] of [re] on [str]: the decimal digits. *)
Definition isdecimal (c : ascii) : bool := in_range 48 57 c.

(** The class [\w] of [re] on [str]: [str.isalnum] or an underscore. *)
Definition isword (c : ascii) : bool :=
  in_range 48 57 c || in_range 65 90 c || (code c =? 95)%N
  || in_range 97 122 c || (code c =? 170)%N || in_range 178 179 c
  || (code c =? 181)%N || in_range 185 186 c || in_range 188 190 c
  || in_range 192 214 c || in_range 216 246 c || in_range 248 255 c.

Definition lower_char (c : ascii) : ascii :=
  if in_range 65 90 c || in_range 192 214 c || in_range 216 222 c
  then ascii_of_N (code c + 32)
  else c.

(** [s.lower()] *)
Fixpoint lower (s : string) : string :=
  match s with
  | EmptyString => EmptyString
  | String c s' => String (lower_char c) (lower s')
  end.

Fixpoint lstrip (s : string) : string :=
  match s with
  | EmptyString => EmptyString
  | String c s' => if isspace c then lstrip s' else s
  end.

Fixpoint rstrip (s : string) : string :=
  match s with
  | EmptyString => EmptyString
  | String c s' =>
      match rstrip s' with
      | EmptyString => if isspace c then EmptyString else String c EmptyString
      | r => String c r
      end
  end.

(** [s.strip()] *)
Definition strip (s : string) : string := rstrip (lstrip s).

(** [re.sub(r"\s+", " ", s)]: every maximal run of whitespace becomes one
    space.  [in_run] tells that the previous character was whitespace. *)
Fixpoint sub_spaces_from (in_run : bool) (s : string) : string :=
  match s with
  | EmptyString => EmptyString
  | String c s' =>
      if isspace c
      then if in_run then sub_spaces_from true s'
           else String " " (sub_spaces_from true s')
      else String c (sub_spaces_from false s')
  end.

Definition sub_spaces (s : string) : string := sub_spaces_from false s.

(** [k in s] on strings. *)
Fixpoint contains (k s : string) : bool :=
  prefix k s
  || match s with
     | EmptyString => false
     | String _ s' => contains k s'
     end.

(** [any(w in text for w in ws)] *)
Definition any_in (ws : list string) (text : string) : bool :=
  existsb (fun w => contains w text) ws.

(** *** [re.search(r"(\d+)", s)]: the leftmost, longest run of digits. *)

Fixpoint take_digits (s : string) : string :=
  match s with
  | EmptyString => EmptyString
  | String c s' => if isdecimal c then String c (take_digits s') else EmptyString
  end.

Fixpoint search_digits (s : string) : option string :=
  match s with
  | EmptyString => None
  | String c s' => if isdecimal c then Some (take_digits s) else search_digits s'
  end.

(** *** [int(s)] on a string of decimal digits.  Anything else is a
    [ValueError] here (Python also accepts a sign, blanks and
    underscores; [app.py] never passes them).  CPython 3.11 and later
    (and the patched 3.7 to 3.10 releases) refuse to convert a string of
    more than [sys.get_int_max_str_digits()] digits, 4300 unless the
    process changes it; [app.py] does not. *)

Definition default_max_str_digits : nat := 4300.

Definition digit_value (c : ascii) : Z := Z.of_N (code c) - 48.

Fixpoint int_from (acc : Z) (s : string) : result Z :=
  match s with
  | EmptyString => Ok acc
  | String c s' =>
      if isdecimal c then int_from (10 * acc + digit_value c) s'
      else Raise ValueError
  end.

Definition int (s : string) : result Z :=
  match s with
  | EmptyString => Raise ValueError
  | _ =>
      if (default_max_str_digits <? String.length s)%nat
      then Raise ValueError
      else int_from 0 s
  end.

(** *** [re.search(rf"\b{w}\b", s)] for a literal [w]. *)

Definition isword_opt (c : option ascii) : bool :=
  match c with
  | Some c => isword c
  | None => false
  end.

(** [\b] between the characters [prev] and [next] ([None] outside the
    string). *)
Definition boundary (prev next : option ascii) : bool :=
  xorb (isword_opt prev) (isword_opt next).

Definition head (s : string) : option ascii :=
  match s with
  | EmptyString => None
  | String c _ => Some c
  end.

(** The rest of [s] after the literal [w], when [s] starts with [w],
    with the character that precedes the rest. *)
Fixpoint match_literal (prev : option ascii) (w s : string)
  : option (option ascii * string) :=
  match w with
  | EmptyString => Some (prev, s)
  | String a w' =>
      match s with
      | EmptyString => None
      | String c s' =>
          if Ascii.eqb a c then match_literal (Some c) w' s' else None
      end
  end.

(** Does [\bw\b] match at the start of [s], whose previous character is
    [prev]? *)
Definition word_here (prev : option ascii) (w s : string) : bool :=
  boundary prev (head s)
  && match match_literal prev w s with
     | Some (last, rest) => boundary last (head rest)
     | None => false
     end.

Fixpoint search_word_from (prev : option ascii) (w s : string) : bool :=
  word_here prev w s
  || match s with
     | EmptyString => false
     | String c s' => search_word_from (Some c) w s'
     end.

Definition search_word (w s : string) : bool := search_word_from None w s.

(** [re.search(r"\b(w1|w2|...)\b", s)]: some alternative matches
    somewhere. *)
Definition search_words (ws : list string) (s : string) : bool :=
  existsb (fun w => search_word w s) ws.

(** A dict literal is an association list in insertion order. *)
Definition dict (V : Type) : Type := list (string * V).

Fixpoint get {V : Type} (d : dict V) (k : string) : option V :=
  match d with
  | [] => None
  | (k', v) :: d' => if String.eqb k' k then Some v else get d' k
  end.

(** [k in d] *)
Definition mem {V : Type} (d : dict V) (k : string) : bool :=
  match get d k with
  | Some _ => true
  | None => false
  end.

(** [d[k]] *)
Definition subscript {V : Type} (d : dict V) (k : string) : result V :=
  match get d k with
  | Some v => Ok v
  | None => Raise KeyError
  end.

(** [list(d.keys())] *)
Definition keys {V : Type} (d : dict V) : list string := map fst d.

End Py.

(* ===================================================================== *)
(** ** [difflib]: [SequenceMatcher] and [get_close_matches]               *)
(* ===================================================================== *)

Module Difflib.

(** A [Match(a, b, size)] triple. *)
Record Match : Type := mkMatch { m_a : nat; m_b : nat; m_size : nat }.

(** A region [(alo, ahi, blo, bhi)] still to be looked at. *)
Definition region : Type := (nat * nat * nat * nat)%type.

Section SequenceMatcher.
(** [a] is [seq1], [b] is [seq2]; [isjunk] is [None] and [autojunk] is
    [True], as [get_close_matches] builds the matcher. *)
Variables a b : list ascii.

Definition item (l : list ascii) (i : nat) : ascii := nth i l Ascii.zero.

(** *** [__chain_b] *)

Fixpoint indices_from (j : nat) (c : ascii) (l : list ascii) : list nat :=
  match l with
  | [] => []
  | x :: l' =>
      if Ascii.eqb x c then j :: indices_from (S j) c l'
      else indices_from (S j) c l'
  end.

(** The elements purged as popular: only when [len(b) >= 200], those
    that occur more than [len(b) // 100 + 1] times. *)
Definition popular (c : ascii) : bool :=
  (200 <=? length b)%nat
  && (length b / 100 + 1 <? length (indices_from 0 c b))%nat.

(** [b2j.get(c, [])] *)
Definition b2j (c : ascii) : list nat :=
  if popular c then [] else indices_from 0 c b.

(** [bjunk] is empty: no [isjunk] function was given. *)
Definition isbjunk (c : ascii) : bool := false.

(** *** [find_longest_match] *)

Fixpoint j2len_get (d : list (nat * nat)) (j : nat) : nat :=
  match d with
  | [] => 0
  | (j', k) :: d' => if (j' =? j)%nat then k else j2len_get d' j
  end.

(** [j2len.get(j-1, 0)]; the key [-1] is never present. *)
Definition j2len_prev (d : list (nat * nat)) (j : nat) : nat :=
  match j with
  | O => 0
  | S j' => j2len_get d j'
  end.

(** The inner loop [for j in b2j.get(a[i], nothing)], with its
    [continue] and [break]. *)
Fixpoint scan_row (i blo bhi : nat) (j2len : list (nat * nat))
    (js : list nat) (newj2len : list (nat * nat)) (best : Match)
  : list (nat * nat) * Match :=
  match js with
  | [] => (newj2len, best)
  | j :: js' =>
      if (j <? blo)%nat then scan_row i blo bhi j2len js' newj2len best
      else if (bhi <=? j)%nat then (newj2len, best)
      else
        let k := (j2len_prev j2len j + 1)%nat in
        let best' :=
          if (m_size best <? k)%nat
          then mkMatch (i + 1 - k) (j + 1 - k) k
          else best in
        scan_row i blo bhi j2len js' ((j, k) :: newj2len) best'
  end.

(** One round of the outer loop [for i in range(alo, ahi)]. *)
Definition scan_step (blo bhi : nat) (st : list (nat * nat) * Match)
    (i : nat) : list (nat * nat) * Match :=
  scan_row i blo bhi (fst st) (b2j (item a i)) [] (snd st).

Definition scan (alo ahi blo bhi : nat) : Match :=
  snd (fold_left (scan_step blo bhi) (seq alo (ahi - alo))
         ([], mkMatch alo blo 0)).

(** [while besti > alo and bestj > blo and ok(b[bestj-1]) and
    a[besti-1] == b[bestj-1]] *)
Fixpoint extend_left (ok : ascii -> bool) (alo blo : nat)
    (besti bestj bestsize : nat) : Match :=
  match besti, bestj with
  | S i', S j' =>
      if (alo <? besti)%nat && (blo <? bestj)%nat
         && ok (item b j') && Ascii.eqb (item a i') (item b j')
      then extend_left ok alo blo i' j' (S bestsize)
      else mkMatch besti bestj bestsize
  | _, _ => mkMatch besti bestj bestsize
  end.

(** [while besti+bestsize < ahi and bestj+bestsize < bhi and
    ok(b[bestj+bestsize]) and a[besti+bestsize] == b[bestj+bestsize]];
    [room] counts the rounds the first test still allows. *)
Fixpoint extend_right (ok : ascii -> bool) (ahi bhi besti bestj : nat)
    (room bestsize : nat) : nat :=
  match room with
  | O => bestsize
  | S room' =>
      if (besti + bestsize <? ahi)%nat && (bestj + bestsize <? bhi)%nat
         && ok (item b (bestj + bestsize))
         && Ascii.eqb (item a (besti + bestsize)) (item b (bestj + bestsize))
      then extend_right ok ahi bhi besti bestj room' (S bestsize)
      else bestsize
  end.

Definition extend (ok : ascii -> bool) (alo ahi blo bhi : nat) (m : Match)
  : Match :=
  let l := extend_left ok alo blo (m_a m) (m_b m) (m_size m) in
  mkMatch (m_a l) (m_b l)
    (extend_right ok ahi bhi (m_a l) (m_b l)
       (ahi - (m_a l + m_size l)) (m_size l)).

Definition find_longest_match (alo ahi blo bhi : nat) : Match :=
  let best := scan alo ahi blo bhi in
  let best := extend (fun c => negb (isbjunk c)) alo ahi blo bhi best in
  extend isbjunk alo ahi blo bhi best.

(** *** [get_matching_blocks]: the work list.  The head of [queue] is
    the end of the Python list, where [pop] and [append] work. *)

Definition step_queue (r : region) (x : Match) (queue : list region)
  : list region :=
  let '(alo, ahi, blo, bhi) := r in
  let '(i, j, k) := (m_a x, m_b x, m_size x) in
  let queue :=
    if (alo <? i)%nat && (blo <? j)%nat then (alo, i, blo, j) :: queue
    else queue in
  if (i + k <? ahi)%nat && (j + k <? bhi)%nat
  then (i + k, ahi, j + k, bhi) :: queue
  else queue.

Definition find_in (r : region) : Match :=
  let '(alo, ahi, blo, bhi) := r in find_longest_match alo ahi blo bhi.

Definition weight (r : region) : nat :=
  let '(alo, ahi, _, _) := r in 2 * (ahi - alo) + 1.

Definition queue_weight (queue : list region) : nat :=
  list_sum (map weight queue).


(** The block found lies in [a[alo:ahi]]; this is what makes the work
    list shrink. *)

Definition row_ok (alo n : nat) (st : list (nat * nat) * Match) : Prop :=
  Forall (fun p => snd p <= n - alo)%nat (fst st)
  /\ (alo <= m_a (snd st))%nat
  /\ (m_a (snd st) + m_size (snd st) <= n)%nat.

Lemma j2len_get_le (d : list (nat * nat)) (bound j : nat) :
  Forall (fun p => snd p <= bound)%nat d -> (j2len_get d j <= bound)%nat.
Proof.
  induction 1 as [|[j' k] d Hk _ IH]; simpl; [lia|].
  destruct (j' =? j)%nat; simpl in Hk; lia.
Qed.

Lemma j2len_prev_le (d : list (nat * nat)) (bound j : nat) :
  Forall (fun p => snd p <= bound)%nat d -> (j2len_prev d j <= bound)%nat.
Proof.
  destruct j; simpl; [lia | apply j2len_get_le].
Qed.

Lemma scan_row_ok (alo i blo bhi : nat) (j2len : list (nat * nat))
    (js : list nat) :
  (alo <= i)%nat ->
  Forall (fun p => snd p <= i - alo)%nat j2len ->
  forall newj2len best,
    Forall (fun p => snd p <= S i - alo)%nat newj2len ->
    (alo <= m_a best)%nat ->
    (m_a best + m_size best <= S i)%nat ->
    row_ok alo (S i) (scan_row i blo bhi j2len js newj2len best).
Proof.
  intros Hi Hold.
  induction js as [|j js IH]; intros newj2len best Hnew Ha Hsz; simpl.
  - repeat split; assumption.
  - destruct (j <? blo)%nat; [apply IH; assumption|].
    destruct (bhi <=? j)%nat; [repeat split; assumption|].
    pose proof (j2len_prev_le j2len (i - alo) j Hold) as Hk.
    apply IH.
    + constructor; [cbn [snd]; lia | assumption].
    + destruct (m_size best <? j2len_prev j2len j + 1)%nat; cbn [m_a]; lia.
    + destruct (m_size best <? j2len_prev j2len j + 1)%nat;
        cbn [m_a m_size]; lia.
Qed.

Lemma scan_fold_ok (alo blo bhi len : nat) :
  forall n st,
    (alo <= n)%nat ->
    row_ok alo n st ->
    row_ok alo (n + len) (fold_left (scan_step blo bhi) (seq n len) st).
Proof.
  induction len as [|len IH]; intros n st Hn Hst; simpl.
  - now rewrite Nat.add_0_r.
  - replace (n + S len)%nat with (S n + len)%nat by lia.
    apply IH; [lia|].
    destruct Hst as (Hold & Ha & Hsz).
    unfold scan_step.
    apply scan_row_ok; try assumption; try constructor; lia.
Qed.

Lemma scan_bounds (alo ahi blo bhi : nat) :
  (alo <= m_a (scan alo ahi blo bhi))%nat
  /\ (m_a (scan alo ahi blo bhi) + m_size (scan alo ahi blo bhi)
      <= Nat.max alo ahi)%nat.
Proof.
  unfold scan.
  destruct (scan_fold_ok alo blo bhi (ahi - alo) alo ([], mkMatch alo blo 0))
    as (_ & Ha & Hsz).
  - lia.
  - repeat split; simpl; try constructor; lia.
  - split; [assumption | lia].
Qed.

Lemma extend_left_bounds (ok : ascii -> bool) (alo blo : nat) :
  forall besti bestj bestsize,
    (alo <= besti)%nat ->
    let m := extend_left ok alo blo besti bestj bestsize in
    (alo <= m_a m)%nat
    /\ (m_a m + m_size m = besti + bestsize)%nat
    /\ (bestsize <= m_size m)%nat.
Proof.
  induction besti as [|i IH]; intros bestj bestsize Hlo; simpl.
  - repeat split; simpl; lia.
  - destruct bestj as [|j]; [repeat split; simpl; lia|].
    destruct ((alo <? S i)%nat && (blo <? S j)%nat && ok (item b j)
              && Ascii.eqb (item a i) (item b j)) eqn:E.
    + apply andb_prop in E. destruct E as [E _].
      apply andb_prop in E. destruct E as [E _].
      apply andb_prop in E. destruct E as [E _].
      apply Nat.ltb_lt in E.
      destruct (IH j (S bestsize)) as (H1 & H2 & H3); [lia|].
      repeat split; lia.
    + repeat split; simpl; lia.
Qed.

Lemma extend_right_bounds (ok : ascii -> bool) (ahi bhi besti bestj : nat) :
  forall room bestsize,
    let k := extend_right ok ahi bhi besti bestj room bestsize in
    (bestsize <= k)%nat
    /\ (besti + k <= Nat.max ahi (besti + bestsize))%nat.
Proof.
  induction room as [|room IH]; intros bestsize; simpl; [lia|].
  destruct ((besti + bestsize <? ahi)%nat && (bestj + bestsize <? bhi)%nat
            && ok (item b (bestj + bestsize))
            && Ascii.eqb (item a (besti + bestsize))
                 (item b (bestj + bestsize))) eqn:E; [|lia].
  apply andb_prop in E. destruct E as [E _].
  apply andb_prop in E. destruct E as [E _].
  apply andb_prop in E. destruct E as [E _].
  apply Nat.ltb_lt in E.
  specialize (IH (S bestsize)). simpl in IH. lia.
Qed.

(** [room] never cuts the loop short: where [extend_right] stops, the
    test of the [while] fails. *)
Lemma extend_right_exit (ok : ascii -> bool) (ahi bhi besti bestj : nat) :
  forall room bestsize,
    (ahi - (besti + bestsize) <= room)%nat ->
    let k := extend_right ok ahi bhi besti bestj room bestsize in
    (besti + k <? ahi)%nat && (bestj + k <? bhi)%nat
    && ok (item b (bestj + k))
    && Ascii.eqb (item a (besti + k)) (item b (bestj + k)) = false.
Proof.
  induction room as [|room IH]; intros bestsize Hroom; simpl.
  - replace (besti + bestsize <? ahi)%nat with false; [reflexivity|].
    symmetry. apply Nat.ltb_ge. lia.
  - destruct ((besti + bestsize <? ahi)%nat && (bestj + bestsize <? bhi)%nat
              && ok (item b (bestj + bestsize))
              && Ascii.eqb (item a (besti + bestsize))
                   (item b (bestj + bestsize))) eqn:E; [|exact E].
    apply IH. lia.
Qed.

Lemma extend_bounds (ok : ascii -> bool) (alo ahi blo bhi : nat) (m : Match) :
  (alo <= m_a m)%nat ->
  (m_a m + m_size m <= Nat.max alo ahi)%nat ->
  let m' := extend ok alo ahi blo bhi m in
  (alo <= m_a m')%nat
  /\ (m_a m' + m_size m' <= Nat.max alo ahi)%nat
  /\ (m_size m <= m_size m')%nat.
Proof.
  intros Hlo Hhi. unfold extend.
  pose proof (extend_left_bounds ok alo blo (m_a m) (m_b m) (m_size m) Hlo)
    as (H1 & H2 & H3).
  set (l := extend_left ok alo blo (m_a m) (m_b m) (m_size m)) in *.
  pose proof (extend_right_bounds ok ahi bhi (m_a l) (m_b l)
                (ahi - (m_a l + m_size l)) (m_size l)) as (H4 & H5).
  simpl. repeat split; lia.
Qed.

Lemma find_longest_match_bounds (alo ahi blo bhi : nat) :
  let m := find_longest_match alo ahi blo bhi in
  (alo <= m_a m)%nat /\ (m_a m + m_size m <= Nat.max alo ahi)%nat.
Proof.
  unfold find_longest_match.
  destruct (scan_bounds alo ahi blo bhi) as (H1 & H2).
  destruct (extend_bounds (fun c => negb (isbjunk c)) alo ahi blo bhi _ H1 H2)
    as (H3 & H4 & _).
  destruct (extend_bounds isbjunk alo ahi blo bhi _ H3 H4) as (H5 & H6 & _).
  split; assumption.
Qed.

Lemma step_queue_weight (r : region) (queue : list region) :
  m_size (find_in r) <> 0%nat ->
  (queue_weight (step_queue r (find_in r) queue)
   < queue_weight (r :: queue))%nat.
Proof.
  destruct r as [[[alo ahi] blo] bhi]. intros Hk.
  pose proof (find_longest_match_bounds alo ahi blo bhi) as (Hlo & Hhi).
  unfold find_in in *. unfold step_queue. cbv zeta in Hlo, Hhi.
  remember (find_longest_match alo ahi blo bhi) as x eqn:Hx. clear Hx.
  destruct ((alo <? m_a x)%nat && (blo <? m_b x)%nat) eqn:E1;
    destruct ((m_a x + m_size x <? ahi)%nat && (m_b x + m_size x <? bhi)%nat)
      eqn:E2;
    unfold queue_weight; simpl;
    try (apply andb_prop in E1; destruct E1 as [E1 _];
         apply Nat.ltb_lt in E1);
    try (apply andb_prop in E2; destruct E2 as [E2 _];
         apply Nat.ltb_lt in E2);
    lia.
Qed.

(** The loop [while queue:] of [get_matching_blocks]. *)
Equations? blocks_loop (queue : list region) (matching_blocks : list Match)
  : list Match by wf (queue_weight queue) lt :=
  blocks_loop [] matching_blocks := matching_blocks;
  blocks_loop (r :: queue) matching_blocks with Logic.inspect (find_in r) := {
    | exist _ x Hx with Logic.inspect (m_size x) := {
      | exist _ O _ => blocks_loop queue matching_blocks;
      | exist _ (S _) Hk =>
          blocks_loop (step_queue r x queue) (matching_blocks ++ [x]) } }.
Proof.
  - unfold queue_weight. simpl. destruct r as [[[alo ahi] blo] bhi].
    simpl. lia.
  - apply step_queue_weight. rewrite Hk. discriminate.
Qed.

(** [sum(triple[-1] for triple in self.get_matching_blocks())].  The
    sort, the merge of adjacent blocks and the final dummy block of
    size 0 that [get_matching_blocks] adds leave this sum as it is. *)
Definition matches : nat :=
  list_sum (map m_size (blocks_loop [(0, length a, 0, length b)]%nat [])).

(** [_calculate_ratio(matches, length)]: the float [2.0 * matches /
    length], kept as the exact fraction, and 1.0 when [length] is 0. *)
Definition calculate_ratio (matches length : nat) : Q :=
  match length with
  | O => 1%Q
  | S _ => Qmake (2 * Z.of_nat matches) (Pos.of_nat length)
  end.

Definition ratio : Q := calculate_ratio matches (length a + length b).

(** [fullbcount.get(elt, 0)], and the loop of [quick_ratio] over [a];
    [avail] starts as [fullbcount] and is updated as the dict is. *)
Definition fullbcount (c : ascii) : Z := Z.of_nat (count_occ ascii_dec b c).

Fixpoint quick_matches (avail : ascii -> Z) (l : list ascii) : nat :=
  match l with
  | [] => 0
  | elt :: l' =>
      let numb := avail elt in
      let avail' := fun c => if Ascii.eqb c elt then (numb - 1)%Z else avail c in
      ((if (0 <? numb)%Z then 1 else 0) + quick_matches avail' l')%nat
  end.

Definition quick_ratio : Q :=
  calculate_ratio (quick_matches fullbcount a) (length a + length b).

Definition real_quick_ratio : Q :=
  calculate_ratio (Nat.min (length a) (length b)) (length a + length b).

End SequenceMatcher.

(** *** [get_close_matches(word, possibilities, n=1, cutoff)] *)

Definition close_enough (cutoff : Q) (word x : string) : bool :=
  let a := list_ascii_of_string x in
  let b := list_ascii_of_string word in
  Qle_bool cutoff (real_quick_ratio a b)
  && Qle_bool cutoff (quick_ratio a b)
  && Qle_bool cutoff (ratio a b).

(** The loop [for x in possibilities], building [result]. *)
Fixpoint scored (cutoff : Q) (word : string) (possibilities : list string)
  : list (Q * string) :=
  match possibilities with
  | [] => []
  | x :: rest =>
      if close_enough cutoff word x
      then (ratio (list_ascii_of_string x) (list_ascii_of_string word), x)
           :: scored cutoff word rest
      else scored cutoff word rest
  end.

(** [x > y] on [(score, string)] tuples: the first components decide
    unless they are equal. *)
Definition tuple_gt (x y : Q * string) : bool :=
  match Qcompare (fst x) (fst y) with
  | Gt => true
  | Lt => false
  | Eq => String.ltb (snd y) (snd x)
  end.

(** [max]: the first of the greatest items. *)
Fixpoint max_from (m : Q * string) (l : list (Q * string)) : Q * string :=
  match l with
  | [] => m
  | x :: l' => max_from (if tuple_gt x m then x else m) l'
  end.

(** [heapq.nlargest(1, result)] *)
Definition nlargest_1 (result : list (Q * string)) : list (Q * string) :=
  match result with
  | [] => []
  | x :: l => [max_from x l]
  end.

(** [n] is 1 at the only call, so the test [n > 0] passes; the test on
    [cutoff] is the source's. *)
Definition get_close_matches (word : string) (possibilities : list string)
    (cutoff : Q) : result (list string) :=
  if negb (Qle_bool 0 cutoff && Qle_bool cutoff 1) then Raise ValueError
  else Ok (map snd (nlargest_1 (scored cutoff word possibilities))).

End Difflib.

(* ===================================================================== *)
(** ** [app.py]: tables                                                   *)
(* ===================================================================== *)

Local Open Scope Z_scope.

Definition FOOD_DB : Py.dict Z :=
  [ ("roti", 80); ("chapati", 80); ("paratha", 180); ("naan", 260);
    ("puri", 100);
    ("rice (1 cup)", 206); ("brown rice (1 cup)", 215);
    ("biryani (1 plate)", 550);
    ("dal (1 cup)", 180); ("sambar (1 cup)", 150); ("rasam (1 cup)", 60);
    ("idli (1 piece)", 58); ("dosa (1):", 180); ("vada (1)", 140);
    ("uttapam (1)", 220);
    ("poha (1 plate)", 250); ("upma (1 bowl)", 250);
    ("pav bhaji (1 plate)", 450);
    ("chole (1 cup)", 280); ("rajma (1 cup)", 260);
    ("paneer butter masala (1 cup)", 450); ("kadai paneer (1 cup)", 320);
    ("butter chicken (1 cup)", 420); ("chicken curry (1 cup)", 300);
    ("mutton curry (1 cup)", 450); ("fish curry (1 cup)", 320);
    ("egg (1)", 78); ("omelette (2 eggs)", 190);
    ("maggi (1 packet)", 330);
    ("samosa (1)", 250); ("pakora (5 pcs)", 300); ("chicken roll (1)", 380);
    ("kachori (1)", 200); ("jalebi (100 g)", 400); ("golgappa (6)", 150);
    ("chai (1 cup)", 100); ("coffee (1 cup)", 60); ("lassi (1 glass)", 250);
    ("buttermilk (1 glass)", 70); ("soda (1 can)", 140);
    ("pizza slice (1)", 285); ("burger (1)", 500); ("fries (medium)", 365);
    ("sandwich (1)", 300); ("pasta (1 cup)", 220);
    ("bread slice (1)", 70); ("butter (1 tbsp)", 102); ("ghee (1 tbsp)", 120);
    ("curd (1 cup)", 200); ("yogurt (1 cup)", 150); ("milk (1 cup)", 120);
    ("oats (1 cup cooked)", 160); ("quinoa (1 cup cooked)", 220);
    ("cornflakes (1 cup)", 100);
    ("apple (1)", 95); ("banana (1)", 105); ("orange (1)", 62);
    ("grapes (1 cup)", 104);
    ("gulab jamun (1)", 150); ("ladoo (1)", 185); ("kheer (1 bowl)", 300);
    ("halwa (1 bowl)", 350);
    ("salad (1 bowl)", 120) ]%string.

Definition SYNONYMS : Py.dict string :=
  [ ("chapathi", "chapati");
    ("chapathi roti", "roti");
    ("parantha", "paratha");
    ("tea", "chai");
    ("coffee", "coffee");
    ("paneer butter", "paneer butter masala (1 cup)");
    ("butter paneer", "paneer butter masala (1 cup)");
    ("chicken biryani", "biryani (1 plate)");
    ("veg biryani", "biryani (1 plate)");
    ("curd", "yogurt (1 cup)");
    ("dahi", "yogurt (1 cup)");
    ("bhaji", "pav bhaji (1 plate)");
    ("fried potatoes", "fries (medium)");
    ("french fries", "fries (medium)");
    ("omelet", "omelette (2 eggs)");
    ("maggi noodles", "maggi (1 packet)") ]%string.

Definition WORD_NUM : Py.dict Z :=
  [ ("one", 1); ("two", 2); ("three", 3); ("four", 4); ("five", 5);
    ("six", 6); ("seven", 7); ("eight", 8); ("nine", 9); ("ten", 10);
    ("a", 1); ("an", 1) ]%string.

(** The alternatives of the unit pattern of [extract_quantity]. *)
Definition UNIT_WORDS : list string :=
  [ "cup"; "bowl"; "plate"; "slice"; "piece"; "pcs"; "glass" ]%string.

(* ===================================================================== *)
(** ** [app.py]: parsing and estimation helpers                           *)
(* ===================================================================== *)

(** The loop [for k, v in SYNONYMS.items(): if k in n: return v]. *)
Fixpoint first_synonym (items : Py.dict string) (n : string) : option string :=
  match items with
  | [] => None
  | (k, v) :: items' =>
      if Py.contains k n then Some v else first_synonym items' n
  end.

(** [l[0]] *)
Definition item0 (l : list string) : result string :=
  match l with
  | x :: _ => Ok x
  | [] => Raise IndexError
  end.

(** The first two statements of [normalize_food_name]. *)
Definition normalized (name : string) : string :=
  Py.sub_spaces (Py.lower (Py.strip name)).

Definition normalize_food_name (name : string) : result string :=
  let n := normalized name in
  match first_synonym SYNONYMS n with
  | Some v => Ok v
  | None =>
      if Py.mem FOOD_DB n then Ok n
      else
        let candidates := Py.keys FOOD_DB in
        match_ <- Difflib.get_close_matches n candidates (7 # 10) ;;
        match match_ with
        | _ :: _ => item0 match_
        | [] => Ok n
        end
  end.

(** The loop [for w, v in WORD_NUM.items(): if re.search(rf"\b{w}\b",
    text): return v]. *)
Fixpoint first_word_num (items : Py.dict Z) (text : string) : option Z :=
  match items with
  | [] => None
  | (w, v) :: items' =>
      if Py.search_word w text then Some v else first_word_num items' text
  end.

Definition extract_quantity (text : string) : result Z :=
  match Py.search_digits text with
  | Some group1 =>
      v <- Py.int group1 ;;
      Ok (Z.max 1 v)
  | None =>
      match first_word_num WORD_NUM text with
      | Some v => Ok v
      | None => if Py.search_words UNIT_WORDS text then Ok 1 else Ok 1
      end
  end.

(** The four [if any(...)] statements on [base], before the clamp. *)
Definition heuristic_base (text : string) : Z :=
  let base := 150 in
  let base :=
    if Py.any_in ["fried"; "deep fry"; "pakora"; "bhaji"]%string text
    then base + 200 else base in
  let base :=
    if Py.any_in ["butter"; "cream"; "cheese"; "paneer"; "ghee"]%string text
    then base + 150 else base in
  let base :=
    if Py.any_in ["sweet"; "dessert"; "sugar"; "syrup"; "jamun"; "jalebi";
                  "halwa"; "kheer"]%string text
    then base + 180 else base in
  let base :=
    if Py.any_in ["grilled"; "boiled"; "steamed"; "salad"; "soup"]%string text
    then base - 50 else base in
  base.

(** Returns [(resolved_name, calories_for_item)]. *)
Definition estimate_calories_free_text (item_text : string)
  : result (string * Z) :=
  qty <- extract_quantity item_text ;;
  name <- normalize_food_name item_text ;;
  if Py.mem FOOD_DB name then
    per_serving <- Py.subscript FOOD_DB name ;;
    let cals := per_serving * qty in
    Ok (name, cals)
  else
    let text := Py.lower item_text in
    let base := heuristic_base text in
    let base := Z.max 50 base in
    Ok ((Py.strip item_text ++ " (estimated)")%string, base * qty).

(** The spec calls it [resolve]. *)
Definition resolve : string -> result (string * Z) :=
  estimate_calories_free_text.

(* ===================================================================== *)
(** ** [app.py]: suggestions engine                                       *)
(* ===================================================================== *)

Definition ALT_SUGGESTIONS : Py.dict string :=
  [ ("paratha", "Swap paratha with chapati/roti 🫓 to cut oil and save ~80–100 kcal per piece.");
    ("biryani", "Try veg pulao 🍚 or smaller portion biryani; pair with salad to fill up.");
    ("paneer butter masala", "Choose kadai paneer 🌶️ or palak paneer; ask for less butter/ghee.");
    ("fries", "Baked sweet potato wedges 🍠 or roasted chana.");
    ("burger", "Grilled chicken or paneer sandwich 🥪 with whole wheat bread, skip extra cheese.");
    ("pizza", "Thin-crust veggie pizza 🍕, go easy on cheese, add a side salad.");
    ("samosa", "Air-fried samosa or chana chaat 🥗; limit to one.");
    ("jalebi", "Fresh fruit 🍎 or a small piece of dark chocolate.");
    ("halwa", "Fruit yogurt 🍓 or kheer with less sugar.") ]%string.

Definition GENERIC_TIP_1 : string :=
  "Choose grilled/roasted over fried 🔥→🍽️, and ask for less butter/ghee.".

Definition GENERIC_TIP_2 : string :=
  "Add a fiber boost: salad, veggies, dal 🥗 to feel full with fewer calories.".

(** The inner loop [for k, msg in ALT_SUGGESTIONS.items(): if k in key:
    tips.append(msg)]. *)
Fixpoint scan_suggestions (items : Py.dict string) (key : string)
    (tips : list string) : list string :=
  match items with
  | [] => tips
  | (k, msg) :: items' =>
      scan_suggestions items' key
        (if Py.contains k key then (tips ++ [msg])%list else tips)
  end.

(** The outer loop [for f in food_items]. *)
Fixpoint collect_tips (food_items : list string) (tips : list string)
  : list string :=
  match food_items with
  | [] => tips
  | f :: rest =>
      let key := Py.lower f in
      collect_tips rest (scan_suggestions ALT_SUGGESTIONS key tips)
  end.

Definition mem_list (x : string) (l : list string) : bool :=
  existsb (String.eqb x) l.

(** [list(dict.fromkeys(l))]: a key that is already in the dict keeps its
    place, a new one goes to the end. *)
Definition fromkeys (l : list string) : list string :=
  fold_left (fun d k => if mem_list k d then d else (d ++ [k])%list) l [].

Definition generate_alternatives (food_items : list string) : list string :=
  let tips := collect_tips food_items [] in
  let tips := (tips ++ [GENERIC_TIP_1])%list in
  let tips := (tips ++ [GENERIC_TIP_2])%list in
  fromkeys tips.

Definition WALK_TIP : string :=
  "Take a brisk walk 🚶‍♀️ 20–30 minutes after meals to support digestion and energy.".

Definition BODYWEIGHT_TIP : string :=
  "Try 10–15 minutes of bodyweight moves 💪 (squats, lunges, planks) to feel active.".

Definition SPLIT_WALKS_TIP : string :=
  "On busy days, split short walks: 3×10 minutes 🕒.".

Definition LONGER_WALK_TIP : string :=
  "If intake is higher than usual, consider a longer walk today 🌤️ or add light yoga 🧘.".

Definition activity_suggestions (total_kcal : Z) : list string :=
  let suggestions := [] in
  let suggestions := (suggestions ++ [WALK_TIP])%list in
  let suggestions := (suggestions ++ [BODYWEIGHT_TIP])%list in
  let suggestions := (suggestions ++ [SPLIT_WALKS_TIP])%list in
  let suggestions :=
    if total_kcal >? 2200 then (suggestions ++ [LONGER_WALK_TIP])%list
    else suggestions in
  suggestions.

(* ===================================================================== *)
(** ** The specification's wording, as definitions to compare with        *)
(* ===================================================================== *)

Module Spec.


(** Case-insensitive occurrence of the keyword [w] in the phrase [s],
    letter by letter on the phrase as it was typed. *)
Fixpoint prefix_ci (w s : string) : bool :=
  match w, s with
  | EmptyString, _ => true
  | String a w', String c s' =>
      Ascii.eqb (Py.lower_char a) (Py.lower_char c) && prefix_ci w' s'
  | String _ _, EmptyString => false
  end.

Fixpoint contains_ci (w s : string) : bool :=
  prefix_ci w s
  || match s with
     | EmptyString => false
     | String _ s' => contains_ci w s'
     end.

(** [phrase contains any of ws], case-insensitively. *)
Definition mentions (ws : list string) (phrase : string) : bool :=
  existsb (fun w => contains_ci w phrase) ws.

Definition indicator (b : bool) : Z := if b then 1 else 0.

Definition FRIED_WORDS : list string :=
  [ "fried"; "deep fry"; "pakora"; "bhaji" ]%string.
Definition RICH_WORDS : list string :=
  [ "butter"; "cream"; "cheese"; "paneer"; "ghee" ]%string.
Definition SWEET_WORDS : list string :=
  [ "sweet"; "dessert"; "sugar"; "syrup"; "jamun"; "jalebi"; "halwa";
    "kheer" ]%string.
Definition LIGHT_WORDS : list string :=
  [ "grilled"; "boiled"; "steamed"; "salad"; "soup" ]%string.

(** The running baseline before the clamp: each group counts once. *)
Definition baseline (phrase : string) : Z :=
  150
  + 200 * indicator (mentions FRIED_WORDS phrase)
  + 150 * indicator (mentions RICH_WORDS phrase)
  + 180 * indicator (mentions SWEET_WORDS phrase)
  - 50 * indicator (mentions LIGHT_WORDS phrase).

(** The estimate for one serving. *)
Definition generic_estimate (phrase : string) : Z :=
  Z.max 50 (baseline phrase).

(** Every character of [s] satisfies [p]. *)
Definition all_chars (p : ascii -> bool) (s : string) : Prop :=
  forall l c r, s = (l ++ String c r)%string -> p c = true.

(** The value of a run of decimal digits. *)
Fixpoint decimal_from (acc : Z) (run : string) : Z :=
  match run with
  | EmptyString => acc
  | String c run' => decimal_from (10 * acc + Py.digit_value c) run'
  end.

Definition decimal (run : string) : Z := decimal_from 0 run.

(** The first run of digits, if any, is short enough for [int]. *)
Definition digits_within_limit (phrase : string) : Prop :=
  forall run,
    Py.search_digits phrase = Some run ->
    (String.length run <= Py.default_max_str_digits)%nat.

(** Quantity extraction as section 4.1.1 words it: the first run of
    digits if there is one; else the first lexicon entry, in lexicon
    order, that occurs as a whole word whatever its case; else 1. *)
Definition quantity (phrase : string) : Z :=
  match Py.search_digits phrase with
  | Some run => Z.max 1 (decimal run)
  | None =>
      match first_word_num WORD_NUM (Py.lower phrase) with
      | Some v => v
      | None => 1
      end
  end.

(** The same, with the lexicon words looked for in the case they are
    written in. *)
Definition quantity_as_typed (phrase : string) : Z :=
  match Py.search_digits phrase with
  | Some run => Z.max 1 (decimal run)
  | None =>
      match first_word_num WORD_NUM phrase with
      | Some v => v
      | None => 1
      end
  end.

(** The tips whose keyword occurs in the lower-cased name, in the order
    of the keyword table. *)
Definition matched_tips (name : string) : list string :=
  map snd
    (filter (fun kv => Py.contains (fst kv) (Py.lower name)) ALT_SUGGESTIONS).

(** Every tip collected for a list of names, then the two generic
    ones. *)
Definition all_tips (names : list string) : list string :=
  (flat_map matched_tips names ++ [GENERIC_TIP_1; GENERIC_TIP_2])%list.

(** De-duplication that keeps the first copy of each element where it
    stands. *)
Fixpoint first_seen (l : list string) : list string :=
  match l with
  | [] => []
  | x :: l' => x :: filter (fun y => negb (String.eqb y x)) (first_seen l')
  end.

End Spec.

(** What [normalize_food_name] returns, case by case. *)
Inductive resolution (name : string) : string -> Prop :=
| by_synonym (v : string) :
    first_synonym SYNONYMS (normalized name) = Some v ->
    resolution name v
| by_exact_key :
    first_synonym SYNONYMS (normalized name) = None ->
    Py.mem FOOD_DB (normalized name) = true ->
    resolution name (normalized name)
| by_close_match (x : string) (others : list string) :
    first_synonym SYNONYMS (normalized name) = None ->
    Py.mem FOOD_DB (normalized name) = false ->
    Difflib.get_close_matches (normalized name) (Py.keys FOOD_DB) (7 # 10)
    = Ok (x :: others) ->
    resolution name x
| by_nothing :
    first_synonym SYNONYMS (normalized name) = None ->
    Py.mem FOOD_DB (normalized name) = false ->
    Difflib.get_close_matches (normalized name) (Py.keys FOOD_DB) (7 # 10)
    = Ok [] ->
    resolution name (normalized name).

(** The quantity read from a catalog key: 2, 5, 100 and 6 for the four
    keys whose first run of digits is not 1, and 1 for every other
    key. *)
Definition catalog_key_quantity (k : string) : Z :=
  match
    Py.get [ ("omelette (2 eggs)", 2); ("pakora (5 pcs)", 5);
             ("jalebi (100 g)", 100); ("golgappa (6)", 6) ]%string k
  with
  | Some qty => qty
  | None => 1
  end.

(** What C1 states of one catalog entry, under the condition on the
    synonym pass that the code needs. *)
Definition catalog_key_resolves (kv : string * Z) : Prop :=
  let (k, v) := kv in
  first_synonym SYNONYMS (normalized k) = None
  \/ first_synonym SYNONYMS (normalized k) = Some k ->
  extract_quantity k = Ok (catalog_key_quantity k)
  /\ resolve k = Ok (k, v * catalog_key_quantity k)
  /\ (Py.search_digits k = None -> catalog_key_quantity k = 1)
  /\ (forall run,
         Py.search_digits k = Some run ->
         catalog_key_quantity k = Z.max 1 (Spec.decimal run)).

(** A phrase made of 4301 digits. *)
Definition long_digit_run : string :=
  string_of_list_ascii (repeat "9"%char 4301).

(* ===================================================================== *)
(** ** [app.py]: the store, the session and the button handlers           *)
(* ===================================================================== *)

(** The state that the handlers of [auth_panel] and [dashboard] and the
    entry point read and write: the file [calmate_db.json] and
    [st.session_state].  A handler is a function from the state before
    the click to the state after it, with the exception it lets
    through, if any.  The file holds what [save_db] wrote, or nothing
    that [json.load] can read; only the mapping under "users" is kept,
    since the app reads and writes nothing else of it. *)

Module App.

(** [d[k] = v]: a key that is there keeps its place. *)
Fixpoint set {V : Type} (d : Py.dict V) (k : string) (v : V) : Py.dict V :=
  match d with
  | [] => [(k, v)]
  | (k', v') :: d' =>
      if String.eqb k' k then (k', v) :: d' else (k', v') :: set d' k v
  end.

(** One logged item, [{"raw": ..., "name": ..., "kcal": ...}]. *)
Record entry : Type := mkEntry { raw : string; name : string; kcal : Z }.

(** [{date_str: [entry, ...]}] *)
Definition day_map : Type := Py.dict (list entry).

(** One user, [{"pw": ..., "entries": ..., "remember": ...}]. *)
Record account : Type :=
  mkAccount { pw : string; entries : day_map; remember : bool }.

Definition users_map : Type := Py.dict account.

(** [st.session_state] *)
Record session : Type :=
  mkSession { user : option string; s_entries : day_map; today : string }.

Record state : Type :=
  mkState { file : option users_map; sess : session }.

(** What a call of [save_db] does to the file: it writes it; or [open]
    fails and the file stays; or the write fails after [open] emptied
    the file.  The exception is swallowed in every case. *)
Inductive save_outcome : Type := Written | Untouched | Truncated.

(** [load_db().get("users", {})]: any exception gives [{"users": {}}]. *)
Definition load_db (f : option users_map) : users_map :=
  match f with
  | Some users => users
  | None => []
  end.

Definition save_db (o : save_outcome) (users : users_map)
    (f : option users_map) : option users_map :=
  match o with
  | Written => Some users
  | Untouched => f
  | Truncated => None
  end.

(** A session that has just started. *)
Definition new_session (today_str : string) : session :=
  mkSession None [] today_str.

(** [if st.session_state.user:] *)
Definition logged_in (s : session) : bool :=
  match user s with
  | Some u => negb (String.eqb u "")
  | None => false
  end.

(** The entry point, run at the start of every script run: the
    auto-login. *)
Definition entrypoint (w : state) : state :=
  let db := load_db (file w) in
  match user (sess w) with
  | None =>
      let remembered_users :=
        map fst (filter (fun ud => remember (snd ud)) db) in
      match remembered_users with
      | [u] => mkState (file w)
                 (mkSession (Some u) (s_entries (sess w)) (today (sess w)))
      | _ => w
      end
  | Some _ => w
  end.

(** [st.experimental_rerun()]: the script starts again. *)
Definition rerun (w : state) : state := entrypoint w.

Section Auth.
(** [_hash_pw]: [hashlib.sha256(pw.encode()).hexdigest()]. *)
Variable _hash_pw : string -> string.

(** The handler of the Login button.  [true] is the success branch. *)
Definition login (o : save_outcome) (uname pw_typed : string)
    (remember_box : bool) (w : state) : state * bool :=
  let users := load_db (file w) in
  match Py.get users uname with
  | Some acct =>
      if String.eqb (pw acct) (_hash_pw pw_typed) then
        let s := mkSession (Some uname) (entries acct) (today (sess w)) in
        let f :=
          if remember_box
          then save_db o
                 (set users uname (mkAccount (pw acct) (entries acct) true))
                 (file w)
          else file w in
        (rerun (mkState f s), true)
      else (w, false)
  | None => (w, false)
  end.

(** The handler of the Create account button. *)
Definition signup (o : save_outcome) (suname spw : string) (w : state)
  : state * bool :=
  if String.eqb suname "" || String.eqb spw "" then (w, false)
  else
    let users := load_db (file w) in
    if Py.mem users suname then (w, false)
    else
      let users := set users suname (mkAccount (_hash_pw spw) [] true) in
      let f := save_db o users (file w) in
      (rerun (mkState f (mkSession (Some suname) [] (today (sess w)))), true).

End Auth.

(** [re.split(r"[,\\n]+", raw_text)].  In the raw string the class holds
    a comma, an escaped backslash and the letter n. *)
Definition is_separator (c : ascii) : bool :=
  Ascii.eqb c ","%char || Ascii.eqb c "\"%char || Ascii.eqb c "n"%char.

Fixpoint re_split_from (in_run : bool) (s : string) : list string :=
  match s with
  | EmptyString => [EmptyString]
  | String c s' =>
      if is_separator c
      then if in_run then re_split_from true s'
           else EmptyString :: re_split_from true s'
      else
        match re_split_from false s' with
        | piece :: rest => String c piece :: rest
        | [] => [String c EmptyString]
        end
  end.

Definition re_split (s : string) : list string := re_split_from false s.

(** [[i for i in re.split(...) if i.strip()]] *)
Definition split_items (raw_text : string) : list string :=
  filter (fun i => negb (String.eqb (Py.strip i) "")) (re_split raw_text).

(** [entries.setdefault(today_str, []).append(entry)] *)
Definition append_entry (m : day_map) (today_str : string) (e : entry)
  : day_map :=
  match Py.get m today_str with
  | Some l => set m today_str (l ++ [e])%list
  | None => (m ++ [(today_str, [e])])%list
  end.

(** The loop [for it in items] of the Add button.  [int(round(kcal))] is
    [kcal], an [int] already.  An exception of the resolver leaves the
    loop with what was appended so far. *)
Fixpoint add_loop (today_str : string) (items : list string) (m : day_map)
    (added : list entry) : day_map * list entry * option exn :=
  match items with
  | [] => (m, added, None)
  | it :: rest =>
      match estimate_calories_free_text it with
      | Raise e => (m, added, Some e)
      | Ok (nm, k) =>
          let e := mkEntry (Py.strip it) nm k in
          add_loop today_str rest (append_entry m today_str e)
            (added ++ [e])%list
      end
  end.

(** [db["users"].setdefault(user, {...}); db["users"][user]["entries"] =
    st.session_state.entries] *)
Definition store_entries (users : users_map) (u : string) (m : day_map)
  : users_map :=
  match Py.get users u with
  | Some acct => set users u (mkAccount (pw acct) m (remember acct))
  | None => (users ++ [(u, mkAccount "" m true)])%list
  end.

(** The handler of the Add button, for the user [u] of the session. *)
Definition add_to_today (o : save_outcome) (raw_text : string) (u : string)
    (w : state) : state * option exn :=
  let items := split_items raw_text in
  let today_str := today (sess w) in
  let '(m, added, raised) := add_loop today_str items (s_entries (sess w)) [] in
  let s := mkSession (user (sess w)) m today_str in
  match raised with
  | Some e => (mkState (file w) s, Some e)
  | None =>
      match added with
      | [] => (mkState (file w) s, None)
      | _ :: _ =>
          let users := store_entries (load_db (file w)) u m in
          (mkState (save_db o users (file w)) s, None)
      end
  end.

(** The handler of the Clear today button: [db["users"][user]] raises a
    [KeyError] for a user the file does not hold. *)
Definition clear_today (o : save_outcome) (u : string) (w : state)
  : state * option exn :=
  let today_str := today (sess w) in
  let m := set (s_entries (sess w)) today_str [] in
  let s := mkSession (user (sess w)) m today_str in
  let users := load_db (file w) in
  match Py.get users u with
  | None => (mkState (file w) s, Some KeyError)
  | Some acct =>
      let users := set users u (mkAccount (pw acct) m (remember acct)) in
      (mkState (save_db o users (file w)) s, None)
  end.

(** The handler of the Logout button. *)
Definition logout (o : save_outcome) (u : string) (w : state) : state :=
  let users := load_db (file w) in
  let f :=
    match Py.get users u with
    | Some acct =>
        save_db o
          (set users u (mkAccount (pw acct) (s_entries (sess w)) (remember acct)))
          (file w)
    | None => file w
    end in
  rerun (mkState f (mkSession None (s_entries (sess w)) (today (sess w)))).

(** The handler of the Reset account data button. *)
Definition reset_account (o : save_outcome) (u : string) (w : state) : state :=
  let users := load_db (file w) in
  let f :=
    match Py.get users u with
    | Some acct =>
        save_db o (set users u (mkAccount (pw acct) [] (remember acct))) (file w)
    | None => file w
    end in
  mkState f (mkSession (user (sess w)) [] (today (sess w))).

(** [day_entries] and [total_kcal] of the dashboard. *)
Definition day_entries (s : session) : list entry :=
  match Py.get (s_entries s) (today s) with
  | Some l => l
  | None => []
  end.

Definition sum_kcal (l : list entry) : Z :=
  fold_left (fun acc e => acc + kcal e) l 0.

Definition total_kcal (s : session) : Z := sum_kcal (day_entries s).

End App.

(** The users that the auto-login of the entry point counts. *)
Definition remembered_users (f : option App.users_map) : list string :=
  map fst (filter (fun ud => App.remember (snd ud)) (App.load_db f)).

(** From the file [f] to the file [f'], the click of the user [u] kept
    the accounts: the file can no longer be read, or every account of
    [f] is in [f'] with its password hash, and as it was when it is not
    the account of [u]. *)
Definition accounts_kept (u : string) (f f' : option App.users_map) : Prop :=
  f' = None
  \/ forall v a,
      Py.get (App.load_db f) v = Some a ->
      exists a',
        Py.get (App.load_db f') v = Some a'
        /\ App.pw a' = App.pw a
        /\ (v <> u -> a' = a).

(* ===================================================================== *)
(** ** Facts about the string primitives                                  *)
(* ===================================================================== *)

Section StringFacts.


Lemma contains_nil (k : string) :
  Py.contains k EmptyString = prefix k EmptyString.
Proof. simpl. apply orb_false_r. Qed.

Lemma contains_cons (k : string) (c : ascii) (s : string) :
  Py.contains k (String c s) = prefix k (String c s) || Py.contains k s.
Proof. reflexivity. Qed.



(** Looking for a lower-case keyword in the lower-cased text is the
    case-insensitive search on the text itself. *)
Lemma prefix_lower (w s : string) :
  Py.lower w = w -> prefix w (Py.lower s) = Spec.prefix_ci w s.
Proof.
  revert s. induction w as [|a w IH]; intros s Hw.
  - destruct s; reflexivity.
  - simpl in Hw. injection Hw as Ha Hw.
    destruct s as [|c s]; simpl; [reflexivity|].
    rewrite Ha, (IH s Hw).
    destruct (ascii_dec a (Py.lower_char c)) as [->|Hne].
    + now rewrite Ascii.eqb_refl.
    + apply Ascii.eqb_neq in Hne. now rewrite Hne.
Qed.

Lemma contains_lower (w s : string) :
  Py.lower w = w -> Py.contains w (Py.lower s) = Spec.contains_ci w s.
Proof.
  intros Hw. induction s as [|c s IH].
  - change (Py.lower EmptyString) with EmptyString.
    rewrite contains_nil. simpl. rewrite orb_false_r.
    exact (prefix_lower w EmptyString Hw).
  - change (Py.lower (String c s)) with
      (String (Py.lower_char c) (Py.lower s)).
    rewrite contains_cons.
    change (Spec.contains_ci w (String c s))
      with (Spec.prefix_ci w (String c s) || Spec.contains_ci w s).
    rewrite IH. f_equal.
    exact (prefix_lower w (String c s) Hw).
Qed.

Lemma any_in_lower (ws : list string) (s : string) :
  Forall (fun w => Py.lower w = w) ws ->
  Py.any_in ws (Py.lower s) = Spec.mentions ws s.
Proof.
  unfold Py.any_in, Spec.mentions.
  induction 1 as [|w ws Hw _ IH]; simpl; [reflexivity|].
  now rewrite IH, contains_lower.
Qed.

(** [int] on the group that [re.search(r"(\d+)", s)] returns. *)
Lemma int_from_take_digits (s : string) (acc : Z) :
  Py.int_from acc (Py.take_digits s)
  = Ok (Spec.decimal_from acc (Py.take_digits s)).
Proof.
  revert acc. induction s as [|c s IH]; intros acc; simpl; [reflexivity|].
  destruct (Py.isdecimal c) eqn:E; simpl; [|reflexivity].
  now rewrite E, IH.
Qed.

Lemma search_digits_take (s run : string) :
  Py.search_digits s = Some run ->
  exists c t, Py.isdecimal c = true /\ run = String c (Py.take_digits t).
Proof.
  induction s as [|c s IH]; simpl; [discriminate|].
  destruct (Py.isdecimal c) eqn:E; [|exact IH].
  intros H. injection H as <-. now exists c, s.
Qed.

(** [int] on the group of the digit search: its value when the group is
    short enough, a [ValueError] when it is not. *)
Lemma search_digits_int (s run : string) :
  Py.search_digits s = Some run ->
  Py.int run
  = if (Py.default_max_str_digits <? String.length run)%nat
    then Raise ValueError
    else Ok (Spec.decimal run).
Proof.
  intros H. destruct (search_digits_take s run H) as (c & t & E & ->).
  unfold Py.int, Spec.decimal.
  destruct (Py.default_max_str_digits <? _)%nat; [reflexivity|].
  cbn [Py.int_from Spec.decimal_from]. rewrite E.
  apply int_from_take_digits.
Qed.

Lemma digit_value_nonneg (c : ascii) :
  Py.isdecimal c = true -> 0 <= Py.digit_value c <= 9.
Proof.
  unfold Py.isdecimal, Py.in_range, Py.digit_value. intros H.
  apply andb_prop in H. destruct H as [H1 H2].
  apply N.leb_le in H1, H2. lia.
Qed.

Lemma decimal_from_take_digits_nonneg (s : string) (acc : Z) :
  0 <= acc -> 0 <= Spec.decimal_from acc (Py.take_digits s).
Proof.
  revert acc. induction s as [|c s IH]; intros acc Hacc;
    cbn [Py.take_digits Spec.decimal_from]; [lia|].
  destruct (Py.isdecimal c) eqn:E; cbn [Spec.decimal_from]; [|lia].
  apply IH. pose proof (digit_value_nonneg c E). lia.
Qed.

(** The first run of digits, said without the search: nothing before it
    is a digit, it is not empty, it is made of digits, and no digit
    follows it. *)
Lemma search_digits_some (s run : string) :
  Py.search_digits s = Some run ->
  exists pre post,
    s = (pre ++ run ++ post)%string
    /\ Spec.all_chars (fun c => negb (Py.isdecimal c)) pre
    /\ run <> EmptyString
    /\ Spec.all_chars Py.isdecimal run
    /\ (forall c, Py.head post = Some c -> Py.isdecimal c = false).
Proof.
  induction s as [|c s IH]; simpl; [discriminate|].
  destruct (Py.isdecimal c) eqn:E.
  - intros H. injection H as <-.
    exists EmptyString. simpl.
    assert (Htake : forall t, exists post,
               t = (Py.take_digits t ++ post)%string
               /\ Spec.all_chars Py.isdecimal (Py.take_digits t)
               /\ (forall c, Py.head post = Some c -> Py.isdecimal c = false)).
    { induction t as [|d t IHt]; simpl.
      - exists EmptyString. repeat split; [|discriminate].
        intros l c' r Hl. destruct l; discriminate.
      - destruct (Py.isdecimal d) eqn:Ed.
        + destruct IHt as (post & Ht & Hall & Hpost).
          exists post. repeat split; [simpl; now rewrite <- Ht | | exact Hpost].
          intros l c' r Hl. destruct l as [|x l]; simpl in Hl.
          * injection Hl as -> _. exact Ed.
          * injection Hl as _ Hl. exact (Hall _ _ _ Hl).
        + exists (String d t). repeat split.
          * intros l c' r Hl. destruct l; discriminate.
          * simpl. intros c' Hc. injection Hc as <-. exact Ed. }
    destruct (Htake s) as (post & Hs & Hall & Hpost).
    exists post. repeat split.
    + simpl. now rewrite <- Hs.
    + intros l c' r Hl. destruct l; discriminate.
    + discriminate.
    + intros l c' r Hl. destruct l as [|x l]; simpl in Hl.
      * injection Hl as -> _. exact E.
      * injection Hl as _ Hl. exact (Hall _ _ _ Hl).
    + exact Hpost.
  - intros H. destruct (IH H) as (pre & post & Hs & Hpre & Hne & Hrun & Hpost).
    exists (String c pre), post. repeat split; try assumption.
    + simpl. now rewrite Hs.
    + intros l c' r Hl. destruct l as [|x l]; simpl in Hl.
      * injection Hl as -> _. now rewrite E.
      * injection Hl as _ Hl. exact (Hpre _ _ _ Hl).
Qed.

Lemma search_digits_none (s : string) :
  Py.search_digits s = None ->
  Spec.all_chars (fun c => negb (Py.isdecimal c)) s.
Proof.
  induction s as [|c s IH]; simpl; intros H l c' r Hl.
  - destruct l; discriminate.
  - destruct (Py.isdecimal c) eqn:E; [discriminate|].
    destruct l as [|x l]; simpl in Hl.
    + injection Hl as -> _. now rewrite E.
    + injection Hl as _ Hl. exact (IH H _ _ _ Hl).
Qed.

End StringFacts.

(* ===================================================================== *)
(** ** Facts about the matcher and the resolver                           *)
(* ===================================================================== *)

Section ResolverFacts.

Lemma get_in {V : Type} (d : Py.dict V) (k : string) (v : V) :
  Py.get d k = Some v -> In (k, v) d.
Proof.
  induction d as [|[k' v'] d IH]; simpl; [discriminate|].
  destruct (String.eqb_spec k' k) as [->|Hne].
  - intros H. injection H as ->. now left.
  - intros H. right. now apply IH.
Qed.

Lemma mem_true_in_keys {V : Type} (d : Py.dict V) (k : string) :
  Py.mem d k = true -> In k (Py.keys d).
Proof.
  unfold Py.mem, Py.keys. destruct (Py.get d k) as [v|] eqn:E; [|discriminate].
  intros _. apply get_in in E. now apply (in_map fst) in E.
Qed.

Lemma in_keys_mem_true {V : Type} (d : Py.dict V) (k : string) :
  In k (Py.keys d) -> Py.mem d k = true.
Proof.
  unfold Py.mem, Py.keys. induction d as [|[k' v'] d IH]; simpl; [tauto|].
  intros [->|H].
  - now rewrite String.eqb_refl.
  - destruct (String.eqb k' k); [reflexivity | now apply IH].
Qed.

(** Subscripting never raises behind the test [name in FOOD_DB]. *)
Lemma subscript_mem {V : Type} (d : Py.dict V) (k : string) :
  Py.mem d k = true -> exists v, Py.get d k = Some v /\ Py.subscript d k = Ok v.
Proof.
  unfold Py.mem, Py.subscript. destruct (Py.get d k) as [v|]; [|discriminate].
  intros _. now exists v.
Qed.

(** *** The close match is one of the candidates. *)

Lemma scored_in (cutoff : Q) (word : string) (possibilities : list string)
    (p : Q * string) :
  In p (Difflib.scored cutoff word possibilities) -> In (snd p) possibilities.
Proof.
  induction possibilities as [|x rest IH]; simpl; [tauto|].
  destruct (Difflib.close_enough cutoff word x); simpl.
  - intros [<-|H]; [now left | right; now apply IH].
  - intros H. right. now apply IH.
Qed.

Lemma max_from_in (l : list (Q * string)) :
  forall m, Difflib.max_from m l = m \/ In (Difflib.max_from m l) l.
Proof.
  induction l as [|x l IH]; intros m; simpl; [now left|].
  destruct (IH (if Difflib.tuple_gt x m then x else m)) as [H|H].
  - rewrite H. destruct (Difflib.tuple_gt x m); [right; now left | now left].
  - right. now right.
Qed.

Lemma nlargest_1_in (l : list (Q * string)) (p : Q * string) :
  In p (Difflib.nlargest_1 l) -> In p l.
Proof.
  destruct l as [|x l]; simpl; [tauto|].
  intros [<-|[]]. destruct (max_from_in l x) as [H|H].
  - rewrite H. now left.
  - now right.
Qed.

Lemma get_close_matches_cutoff (word : string) (possibilities : list string) :
  Difflib.get_close_matches word possibilities (7 # 10)
  = Ok (map snd
          (Difflib.nlargest_1 (Difflib.scored (7 # 10) word possibilities))).
Proof. reflexivity. Qed.

Lemma get_close_matches_in (word : string) (possibilities : list string)
    (found : list string) (x : string) :
  Difflib.get_close_matches word possibilities (7 # 10) = Ok found ->
  In x found -> In x possibilities.
Proof.
  rewrite get_close_matches_cutoff. intros H. injection H as <-.
  rewrite in_map_iff. intros [p [<- Hp]].
  apply nlargest_1_in in Hp. exact (scored_in _ _ _ _ Hp).
Qed.

(** *** Name resolution *)

Lemma normalize_food_name_cases (name : string) :
  exists n, normalize_food_name name = Ok n /\ resolution name n.
Proof.
  unfold normalize_food_name.
  destruct (first_synonym SYNONYMS (normalized name)) as [v|] eqn:Es.
  - exists v. split; [reflexivity | now apply by_synonym].
  - destruct (Py.mem FOOD_DB (normalized name)) eqn:Em.
    + exists (normalized name). split; [reflexivity | now apply by_exact_key].
    + pose proof (get_close_matches_cutoff (normalized name) (Py.keys FOOD_DB))
        as Hg.
      destruct (map snd _) as [|x others] eqn:El in Hg; rewrite Hg; simpl.
      * exists (normalized name). split; [reflexivity | now apply by_nothing].
      * exists x. split; [reflexivity | now apply (by_close_match name x others)].
Qed.

Lemma normalize_food_name_total (name : string) :
  exists n, normalize_food_name name = Ok n.
Proof.
  destruct (normalize_food_name_cases name) as (n & Hn & _). now exists n.
Qed.

(** *** Quantity extraction *)

(** [extract_quantity] raises exactly when the first run of digits is
    too long for [int]; otherwise it returns the quantity of section
    4.1.1, with the lexicon words looked for as typed. *)
Lemma extract_quantity_cases (text : string) :
  (Spec.digits_within_limit text
   /\ extract_quantity text = Ok (Spec.quantity_as_typed text))
  \/ ((exists run,
          Py.search_digits text = Some run
          /\ (Py.default_max_str_digits < String.length run)%nat)
      /\ extract_quantity text = Raise ValueError).
Proof.
  unfold extract_quantity, Spec.quantity_as_typed, Spec.digits_within_limit.
  destruct (Py.search_digits text) as [run|] eqn:E.
  - rewrite (search_digits_int text run E).
    destruct (Nat.ltb_spec Py.default_max_str_digits (String.length run))
      as [Hlong|Hshort].
    + right. split; [now exists run | reflexivity].
    + left. split; [|reflexivity].
      intros run' H. now injection H as <-.
  - left. split; [discriminate|].
    destruct (first_word_num WORD_NUM text); [reflexivity|].
    now destruct (Py.search_words UNIT_WORDS text).
Qed.

Lemma extract_quantity_within_limit (text : string) :
  Spec.digits_within_limit text ->
  extract_quantity text = Ok (Spec.quantity_as_typed text).
Proof.
  intros Hlim.
  destruct (extract_quantity_cases text) as [[_ H]|[(run & Hrun & Hlong) _]];
    [exact H|].
  specialize (Hlim run Hrun). lia.
Qed.

Lemma extract_quantity_ok (text : string) (qty : Z) :
  extract_quantity text = Ok qty ->
  qty = Spec.quantity_as_typed text /\ Spec.digits_within_limit text.
Proof.
  intros H.
  destruct (extract_quantity_cases text) as [[Hlim E]|[_ E]];
    rewrite E in H; [|discriminate].
  injection H as <-. now split.
Qed.

Lemma first_word_num_in (items : Py.dict Z) (text : string) (v : Z) :
  first_word_num items text = Some v -> In v (map snd items).
Proof.
  induction items as [|[w v'] items IH]; simpl; [discriminate|].
  destruct (Py.search_word w text).
  - intros H. injection H as ->. now left.
  - intros H. right. now apply IH.
Qed.

Lemma word_num_positive (v : Z) : In v (map snd WORD_NUM) -> 1 <= v.
Proof.
  simpl. intros H.
  repeat (destruct H as [<-|H]; [lia|]). destruct H.
Qed.

Lemma quantity_as_typed_positive (text : string) :
  1 <= Spec.quantity_as_typed text.
Proof.
  unfold Spec.quantity_as_typed.
  destruct (Py.search_digits text); [lia|].
  destruct (first_word_num WORD_NUM text) as [v|] eqn:E; [|lia].
  apply word_num_positive. exact (first_word_num_in _ _ _ E).
Qed.

Lemma extract_quantity_positive (text : string) (qty : Z) :
  extract_quantity text = Ok qty -> 1 <= qty.
Proof.
  intros H. apply extract_quantity_ok in H. destruct H as [-> _].
  apply quantity_as_typed_positive.
Qed.

(** On a phrase typed in lower case the two readings agree. *)
Lemma quantity_lower_case (phrase : string) :
  Py.lower phrase = phrase ->
  Spec.quantity phrase = Spec.quantity_as_typed phrase.
Proof.
  intros H. unfold Spec.quantity. now rewrite H.
Qed.

(** *** The two branches of [estimate_calories_free_text] *)

Lemma heuristic_base_lower (phrase : string) :
  heuristic_base (Py.lower phrase) = Spec.baseline phrase.
Proof.
  unfold heuristic_base, Spec.baseline.
  rewrite (any_in_lower Spec.FRIED_WORDS), (any_in_lower Spec.RICH_WORDS),
    (any_in_lower Spec.SWEET_WORDS), (any_in_lower Spec.LIGHT_WORDS)
    by (repeat constructor).
  destruct (Spec.mentions Spec.FRIED_WORDS phrase),
    (Spec.mentions Spec.RICH_WORDS phrase),
    (Spec.mentions Spec.SWEET_WORDS phrase),
    (Spec.mentions Spec.LIGHT_WORDS phrase); reflexivity.
Qed.

Lemma baseline_bounds (phrase : string) : 100 <= Spec.baseline phrase <= 680.
Proof.
  unfold Spec.baseline.
  destruct (Spec.mentions Spec.FRIED_WORDS phrase),
    (Spec.mentions Spec.RICH_WORDS phrase),
    (Spec.mentions Spec.SWEET_WORDS phrase),
    (Spec.mentions Spec.LIGHT_WORDS phrase); simpl; lia.
Qed.

Lemma resolve_catalog (phrase n : string) (qty v : Z) :
  extract_quantity phrase = Ok qty ->
  normalize_food_name phrase = Ok n ->
  Py.get FOOD_DB n = Some v ->
  resolve phrase = Ok (n, v * qty).
Proof.
  intros Hq Hn Hv. unfold resolve, estimate_calories_free_text.
  rewrite Hq, Hn. cbn [bind].
  unfold Py.mem, Py.subscript. now rewrite Hv.
Qed.

Lemma resolve_estimated (phrase n : string) (qty : Z) :
  extract_quantity phrase = Ok qty ->
  normalize_food_name phrase = Ok n ->
  Py.mem FOOD_DB n = false ->
  resolve phrase
  = Ok ((Py.strip phrase ++ " (estimated)")%string,
        Spec.generic_estimate phrase * qty).
Proof.
  intros Hq Hn Hm. unfold resolve, estimate_calories_free_text.
  rewrite Hq, Hn. cbn [bind]. rewrite Hm.
  cbv zeta. now rewrite heuristic_base_lower.
Qed.

(** The exception of [extract_quantity] is the only one, and it goes
    through. *)
Lemma resolve_raises (phrase : string) (e : exn) :
  extract_quantity phrase = Raise e -> resolve phrase = Raise e.
Proof.
  intros Hq. unfold resolve, estimate_calories_free_text. now rewrite Hq.
Qed.

Lemma food_db_values_positive (k : string) (v : Z) :
  Py.get FOOD_DB k = Some v -> 0 < v.
Proof.
  intros H. apply get_in in H.
  assert (Hall : Forall (fun kv => 0 < snd kv) FOOD_DB)
    by (repeat constructor).
  rewrite Forall_forall in Hall. exact (Hall _ H).
Qed.

(** The item [resolve] returns once the quantity is there. *)
Lemma resolve_item_shape (phrase : string) (qty : Z) :
  extract_quantity phrase = Ok qty ->
  exists name cals,
    resolve phrase = Ok (name, cals)
    /\ (In name (Py.keys FOOD_DB)
        \/ name = (Py.strip phrase ++ " (estimated)")%string)
    /\ 0 <= cals.
Proof.
  intros Hqty.
  destruct (normalize_food_name_total phrase) as [n Hn].
  pose proof (extract_quantity_positive phrase qty Hqty) as Hq.
  destruct (Py.mem FOOD_DB n) eqn:Em.
  - destruct (subscript_mem FOOD_DB n Em) as (v & Hv & _).
    exists n, (v * qty). repeat split.
    + exact (resolve_catalog phrase n qty v Hqty Hn Hv).
    + left. now apply mem_true_in_keys.
    + pose proof (food_db_values_positive n v Hv). nia.
  - exists (Py.strip phrase ++ " (estimated)")%string,
      (Spec.generic_estimate phrase * qty).
    repeat split.
    + exact (resolve_estimated phrase n qty Hqty Hn Em).
    + now right.
    + unfold Spec.generic_estimate. nia.
Qed.

End ResolverFacts.

(* ===================================================================== *)
(** ** Facts about the suggestion helpers                                 *)
(* ===================================================================== *)

Section SuggestionFacts.

Lemma scan_suggestions_eq (items : Py.dict string) (key : string) :
  forall tips,
    scan_suggestions items key tips
    = (tips ++ map snd (filter (fun kv => Py.contains (fst kv) key) items))%list.
Proof.
  induction items as [|[k msg] items IH]; intros tips; simpl.
  - now rewrite app_nil_r.
  - rewrite IH. destruct (Py.contains k key); simpl; [|reflexivity].
    now rewrite <- app_assoc.
Qed.

Lemma collect_tips_eq (food_items : list string) :
  forall tips,
    collect_tips food_items tips
    = (tips ++ flat_map Spec.matched_tips food_items)%list.
Proof.
  induction food_items as [|f rest IH]; intros tips;
    cbn [collect_tips flat_map].
  - now rewrite app_nil_r.
  - rewrite IH, scan_suggestions_eq, <- app_assoc. reflexivity.
Qed.

Lemma mem_list_in (x : string) (l : list string) :
  mem_list x l = true <-> In x l.
Proof.
  unfold mem_list. rewrite existsb_exists. split.
  - intros [y [Hy E]]. apply String.eqb_eq in E. now subst.
  - intros H. exists x. split; [assumption | apply String.eqb_refl].
Qed.

Lemma mem_list_app (x : string) (l1 l2 : list string) :
  mem_list x (l1 ++ l2) = mem_list x l1 || mem_list x l2.
Proof. unfold mem_list. apply existsb_app. Qed.

Lemma filter_filter (f g : string -> bool) (l : list string) :
  filter f (filter g l) = filter (fun y => g y && f y) l.
Proof.
  induction l as [|x l IH]; simpl; [reflexivity|].
  destruct (g x); simpl; [|exact IH].
  destruct (f x); now rewrite IH.
Qed.

(** The dict grows by the first copies of what is not in it yet. *)
Lemma fromkeys_fold (l : list string) :
  forall d,
    fold_left (fun d k => if mem_list k d then d else (d ++ [k])%list) l d
    = (d ++ filter (fun y => negb (mem_list y d)) (Spec.first_seen l))%list.
Proof.
  induction l as [|x l IH]; intros d; simpl.
  - now rewrite app_nil_r.
  - rewrite IH, filter_filter. destruct (mem_list x d) eqn:E; simpl.
    + f_equal. apply filter_ext_in. intros y _.
      destruct (String.eqb_spec y x) as [->|Hne]; simpl.
      * now rewrite E.
      * reflexivity.
    + rewrite <- app_assoc. simpl. do 2 f_equal.
      apply filter_ext. intros y.
      rewrite mem_list_app. unfold mem_list at 2. simpl.
      rewrite orb_false_r, negb_orb.
      rewrite (String.eqb_sym y x). apply andb_comm.
Qed.

Lemma fromkeys_first_seen (l : list string) :
  fromkeys l = Spec.first_seen l.
Proof.
  unfold fromkeys. rewrite fromkeys_fold. simpl.
  induction (Spec.first_seen l) as [|x t IH]; simpl; [reflexivity|].
  now rewrite IH.
Qed.

Lemma first_seen_in (l : list string) (x : string) :
  In x (Spec.first_seen l) <-> In x l.
Proof.
  induction l as [|y l IH]; simpl; [tauto|].
  rewrite filter_In, IH. split.
  - intros [H|[H _]]; auto.
  - intros [H|H]; [now left|].
    destruct (String.eqb_spec x y) as [->|Hne]; [now left|].
    right. split; [assumption | reflexivity].
Qed.

Lemma first_seen_nodup (l : list string) : NoDup (Spec.first_seen l).
Proof.
  induction l as [|y l IH]; simpl; constructor.
  - rewrite filter_In. intros [_ H]. now rewrite String.eqb_refl in H.
  - now apply NoDup_filter.
Qed.

Lemma generate_alternatives_eq (food_items : list string) :
  generate_alternatives food_items
  = Spec.first_seen (Spec.all_tips food_items).
Proof.
  unfold generate_alternatives, Spec.all_tips.
  rewrite fromkeys_first_seen, collect_tips_eq, <- app_assoc. reflexivity.
Qed.

End SuggestionFacts.

(* ===================================================================== *)
(** ** The resolver on catalog keys (C1)                                  *)
(* ===================================================================== *)

Ltac solve_catalog_entry :=
  let H := fresh "H" in
  intros [H|H]; vm_compute in H;
  first
    [ exfalso; congruence
    | split; [vm_compute; reflexivity|];
      split; [vm_compute; reflexivity|];
      split;
      [ vm_compute; intros; solve [reflexivity | discriminate]
      | let run := fresh "run" in
        let Hrun := fresh "Hrun" in
        intros run Hrun; vm_compute in Hrun;
        first [ discriminate Hrun
              | injection Hrun as <-; vm_compute; reflexivity ] ] ].

Lemma catalog_keys_resolve_all : Forall catalog_key_resolves FOOD_DB.
Proof.
  unfold FOOD_DB.
  repeat (apply Forall_cons; [unfold catalog_key_resolves; solve_catalog_entry|]).
  apply Forall_nil.
Qed.

(** C1 (as stated, refuted): two keys of the catalog that [resolve] does
    not give back with their catalog value.  The synonym pass runs first
    and sends "curd (1 cup)" to the yogurt entry; the digits of
    "pakora (5 pcs)" are read as the quantity 5. *)
Lemma C1_catalog_key_counterexample :
  In ("curd (1 cup)"%string, 200) FOOD_DB
  /\ resolve "curd (1 cup)" = Ok ("yogurt (1 cup)"%string, 150)
  /\ In ("pakora (5 pcs)"%string, 300) FOOD_DB
  /\ resolve "pakora (5 pcs)" = Ok ("pakora (5 pcs)"%string, 1500).
Proof.
  repeat split; try (vm_compute; reflexivity);
    apply get_in; vm_compute; reflexivity.
Qed.

(** C1 (amended): for every catalog key [k] in which no synonym key
    occurs, or whose first synonym key maps to [k] itself, [resolve k]
    returns the name [k] and the catalog value of [k] times the quantity
    read from [k]; that quantity is 2, 5, 100 and 6 for
    "omelette (2 eggs)", "pakora (5 pcs)", "jalebi (100 g)" and
    "golgappa (6)" and 1 for every other key: it is 1 when [k] holds no
    digit and the value of the first run of digits otherwise. *)
Theorem C1_catalog_keys_resolve (k : string) (v : Z) :
  In (k, v) FOOD_DB ->
  first_synonym SYNONYMS (normalized k) = None
  \/ first_synonym SYNONYMS (normalized k) = Some k ->
  extract_quantity k = Ok (catalog_key_quantity k)
  /\ resolve k = Ok (k, v * catalog_key_quantity k)
  /\ (Py.search_digits k = None -> catalog_key_quantity k = 1)
  /\ (forall run,
         Py.search_digits k = Some run ->
         catalog_key_quantity k = Z.max 1 (Spec.decimal run)).
Proof.
  intros Hin.
  pose proof catalog_keys_resolve_all as Hall.
  rewrite Forall_forall in Hall.
  exact (Hall (k, v) Hin).
Qed.

(** C1 (amended) at "pakora (5 pcs)": quantity 5, 1500 kcal. *)
Lemma C1_catalog_keys_resolve_witness :
  extract_quantity "pakora (5 pcs)" = Ok 5
  /\ resolve "pakora (5 pcs)" = Ok ("pakora (5 pcs)"%string, 300 * 5)
  /\ (Py.search_digits "pakora (5 pcs)" = None -> 5 = 1)
  /\ (forall run,
         Py.search_digits "pakora (5 pcs)" = Some run ->
         5 = Z.max 1 (Spec.decimal run)).
Proof.
  apply (C1_catalog_keys_resolve "pakora (5 pcs)" 300).
  - apply get_in. vm_compute. reflexivity.
  - left. vm_compute. reflexivity.
Defined.

(* ===================================================================== *)
(** ** The generic estimator (C2, C9)                                     *)
(* ===================================================================== *)

(** C2: when name resolution ends on a name that is no catalog key,
    [resolve] returns the trimmed phrase followed by " (estimated)" and
    [max(50, 150 + 200*[fried group] + 150*[rich group] + 180*[sweet
    group] - 50*[light group])] times the quantity [extract_quantity]
    gave, each group counted once and looked for case-insensitively in
    the phrase as typed; and [resolve "3 fried pakora"] has quantity 3,
    baseline 350 and 1050 kcal. *)
Theorem C2_generic_estimator :
  (forall phrase n qty,
      extract_quantity phrase = Ok qty ->
      normalize_food_name phrase = Ok n ->
      Py.mem FOOD_DB n = false ->
      resolve phrase
      = Ok ((Py.strip phrase ++ " (estimated)")%string,
            Spec.generic_estimate phrase * qty))
  /\ extract_quantity "3 fried pakora" = Ok 3
  /\ Spec.baseline "3 fried pakora" = 350
  /\ resolve "3 fried pakora" = Ok ("3 fried pakora (estimated)"%string, 1050).
Proof.
  split; [|repeat split; vm_compute; reflexivity].
  intros phrase n qty Hq Hn Hm.
  exact (resolve_estimated phrase n qty Hq Hn Hm).
Qed.

(** C2 at " Grilled  FISH ": trimmed in the label, matched whatever the
    case. *)
Lemma C2_generic_estimator_witness :
  resolve " Grilled  FISH "
  = Ok ("Grilled  FISH (estimated)"%string, 100 * 1).
Proof.
  apply (proj1 C2_generic_estimator " Grilled  FISH " "grilled fish"%string 1).
  - vm_compute. reflexivity.
  - vm_compute. reflexivity.
  - vm_compute. reflexivity.
Defined.

(** C9: in the generic-estimator branch the baseline before the clamp is
    at least 100, so [max(50, base)] is [base], and the estimate is at
    least 100 times the quantity. *)
Theorem C9_clamp_never_changes :
  (forall text,
      100 <= heuristic_base text
      /\ Z.max 50 (heuristic_base text) = heuristic_base text)
  /\ (forall phrase n qty,
         extract_quantity phrase = Ok qty ->
         normalize_food_name phrase = Ok n ->
         Py.mem FOOD_DB n = false ->
         exists name cals,
           resolve phrase = Ok (name, cals)
           /\ cals = heuristic_base (Py.lower phrase) * qty
           /\ 100 * qty <= cals).
Proof.
  assert (Hbase : forall text, 100 <= heuristic_base text).
  { intros text. unfold heuristic_base.
    destruct (Py.any_in _ text), (Py.any_in _ text), (Py.any_in _ text),
      (Py.any_in _ text); lia. }
  split.
  - intros text. specialize (Hbase text). split; lia.
  - intros phrase n qty Hqty Hn Hm.
    exists (Py.strip phrase ++ " (estimated)")%string,
      (heuristic_base (Py.lower phrase) * qty).
    pose proof (extract_quantity_positive phrase qty Hqty) as Hq.
    pose proof (Hbase (Py.lower phrase)) as Hb.
    repeat split.
    + rewrite (resolve_estimated phrase n qty Hqty Hn Hm).
      unfold Spec.generic_estimate. rewrite <- heuristic_base_lower.
      do 3 f_equal. lia.
    + nia.
Qed.

(** C9 at "3 steamed momos": the least baseline, 100, three times. *)
Lemma C9_clamp_never_changes_witness :
  exists name cals,
    resolve "3 steamed momos" = Ok (name, cals)
    /\ cals = heuristic_base (Py.lower "3 steamed momos") * 3
    /\ 100 * 3 <= cals.
Proof.
  apply (proj2 C9_clamp_never_changes "3 steamed momos" "chai"%string 3).
  - vm_compute. reflexivity.
  - vm_compute. reflexivity.
  - vm_compute. reflexivity.
Defined.

(* ===================================================================== *)
(** ** Quantity extraction (C3)                                           *)
(* ===================================================================== *)

(** What [extract_quantity] does, in the order of section 4.1.1: the
    first run of digits wins, also over a number word; without digits
    the lexicon is searched in its own order; otherwise the quantity is
    1.  The words are looked for as they are typed. *)
Lemma extract_quantity_precedence (phrase : string) :
  (forall run,
      Py.search_digits phrase = Some run ->
      (String.length run <= Py.default_max_str_digits)%nat ->
      extract_quantity phrase = Ok (Z.max 1 (Spec.decimal run)))
  /\ (forall pre w v post,
         Py.search_digits phrase = None ->
         WORD_NUM = (pre ++ (w, v) :: post)%list ->
         Py.search_word w phrase = true ->
         Forall (fun e => Py.search_word (fst e) phrase = false) pre ->
         extract_quantity phrase = Ok v)
  /\ (Py.search_digits phrase = None ->
      Forall (fun e => Py.search_word (fst e) phrase = false) WORD_NUM ->
      extract_quantity phrase = Ok 1).
Proof.
  assert (Hfirst : forall items pre w v post,
             items = (pre ++ (w, v) :: post)%list ->
             Py.search_word w phrase = true ->
             Forall (fun e => Py.search_word (fst e) phrase = false) pre ->
             first_word_num items phrase = Some v).
  { intros items pre. revert items.
    induction pre as [|[w' v'] pre IH]; intros items w v post -> Hw Hpre; simpl.
    - now rewrite Hw.
    - inversion Hpre as [|? ? Hw' Hpre']; subst. simpl in Hw'. rewrite Hw'.
      now apply (IH _ w v post). }
  assert (Hnone : forall items,
             Forall (fun e => Py.search_word (fst e) phrase = false) items ->
             first_word_num items phrase = None).
  { induction 1 as [|[w v] items Hw _ IH]; simpl; [reflexivity|].
    simpl in Hw. now rewrite Hw. }
  repeat split.
  - intros run Hrun Hlen. rewrite extract_quantity_within_limit.
    + unfold Spec.quantity_as_typed. now rewrite Hrun.
    + intros run' Hrun'. rewrite Hrun in Hrun'. now injection Hrun' as <-.
  - intros pre w v post Hd HW Hw Hpre. rewrite extract_quantity_within_limit.
    + unfold Spec.quantity_as_typed.
      now rewrite Hd, (Hfirst WORD_NUM pre w v post HW Hw Hpre).
    + intros run Hrun. rewrite Hd in Hrun. discriminate.
  - intros Hd Hall. rewrite extract_quantity_within_limit.
    + unfold Spec.quantity_as_typed. now rewrite Hd, (Hnone WORD_NUM Hall).
    + intros run Hrun. rewrite Hd in Hrun. discriminate.
Qed.

Lemma extract_quantity_examples :
  extract_quantity "two 3 roti" = Ok 3
  /\ resolve "two 3 roti" = Ok ("two 3 roti (estimated)"%string, 150 * 3)
  /\ extract_quantity "0 roti" = Ok 1
  /\ extract_quantity "two one" = Ok 1
  /\ extract_quantity "an apple" = Ok 1
  /\ extract_quantity "three idli" = Ok 3
  /\ extract_quantity "roti" = Ok 1.
Proof. repeat split; vm_compute; reflexivity. Qed.

(** C3 (the code departs from it): "Two roti" holds no digit and holds
    the lexicon word "two" as a whole word, in another case.  Read
    case-insensitively, as C3 says, the quantity is 2;
    [extract_quantity] searches the phrase as typed, finds no lexicon
    word, and returns 1. *)
Theorem C3_lexicon_search_is_case_sensitive :
  Py.search_digits "Two roti" = None
  /\ Py.search_word "two" (Py.lower "Two roti") = true
  /\ Spec.quantity "Two roti" = 2
  /\ extract_quantity "Two roti" = Ok 1
  /\ resolve "Two roti" = Ok ("Two roti (estimated)"%string, 150)
  /\ resolve "two roti" = Ok ("two roti (estimated)"%string, 300).
Proof. repeat split; vm_compute; reflexivity. Qed.

(* ===================================================================== *)
(** ** Name resolution (C4)                                               *)
(* ===================================================================== *)







(* ===================================================================== *)
(** ** The resolved item (C5, C6)                                         *)
(* ===================================================================== *)

(** C5: the item that [resolve] returns for a phrase has a name that is a
    key of the catalog or the phrase (trimmed) followed by
    " (estimated)", and a calorie estimate that is an integer and not
    negative. *)
Theorem C5_resolved_item_invariant (phrase name : string) (cals : Z) :
  resolve phrase = Ok (name, cals) ->
  (In name (Py.keys FOOD_DB)
   \/ name = (Py.strip phrase ++ " (estimated)")%string)
  /\ 0 <= cals.
Proof.
  intros H.
  destruct (extract_quantity phrase) as [qty|e] eqn:Hq.
  - destruct (resolve_item_shape phrase qty Hq) as (name' & cals' & H' & Hshape).
    rewrite H' in H. injection H as <- <-. exact Hshape.
  - rewrite (resolve_raises phrase e Hq) in H. discriminate.
Qed.

(** C5 at "2 roti". *)
Lemma C5_resolved_item_invariant_witness :
  (In "roti"%string (Py.keys FOOD_DB)
   \/ "roti"%string = (Py.strip "2 roti" ++ " (estimated)")%string)
  /\ 0 <= 160.
Proof.
  apply (C5_resolved_item_invariant "2 roti" "roti" 160).
  vm_compute. reflexivity.
Defined.

(** C6 (the code departs from it): [resolve] returns an item for every
    phrase whose first run of digits has at most 4300 digits (name
    resolution always returns, a name that is no catalog key goes to the
    generic estimator, a phrase without digits and lexicon words has
    quantity 1); on a run of 4301 digits [int] raises a [ValueError]
    that nothing catches. *)
Theorem C6_resolve_raises_on_long_digit_run :
  String.length long_digit_run = 4301%nat
  /\ extract_quantity long_digit_run = Raise ValueError
  /\ resolve long_digit_run = Raise ValueError
  /\ (forall phrase,
         Spec.digits_within_limit phrase ->
         exists name cals, resolve phrase = Ok (name, cals))
  /\ (forall phrase, exists n, normalize_food_name phrase = Ok n)
  /\ (forall phrase,
         Py.search_digits phrase = None ->
         first_word_num WORD_NUM phrase = None ->
         extract_quantity phrase = Ok 1).
Proof.
  split; [vm_compute; reflexivity|].
  split; [vm_compute; reflexivity|].
  split; [vm_compute; reflexivity|].
  repeat split.
  - intros phrase Hlim.
    pose proof (extract_quantity_within_limit phrase Hlim) as Hq.
    destruct (resolve_item_shape phrase _ Hq) as (name & cals & H & _).
    now exists name, cals.
  - apply normalize_food_name_total.
  - intros phrase Hd Hw. rewrite extract_quantity_within_limit.
    + unfold Spec.quantity_as_typed. now rewrite Hd, Hw.
    + intros run Hrun. rewrite Hd in Hrun. discriminate.
Qed.

(* ===================================================================== *)
(** ** The suggestion helpers (C7, C8, C10)                               *)
(* ===================================================================== *)

(** C7: [generate_alternatives] collects, name by name, the tips whose
    keyword occurs in the lower-cased name, appends the two generic tips
    and keeps the first copy of each tip in place; the result has no
    duplicates and holds exactly the collected tips.  For ["paratha"] it
    is the paratha tip and the two generic tips, also when several names
    match the same keyword. *)
Theorem C7_generate_alternatives :
  (forall names,
      generate_alternatives names = Spec.first_seen (Spec.all_tips names)
      /\ NoDup (generate_alternatives names)
      /\ (forall tip,
             In tip (generate_alternatives names)
             <-> In tip (Spec.all_tips names)))
  /\ (exists paratha_tip,
         Py.get ALT_SUGGESTIONS "paratha" = Some paratha_tip
         /\ generate_alternatives ["paratha"%string]
            = [paratha_tip; GENERIC_TIP_1; GENERIC_TIP_2]
         /\ generate_alternatives
              ["paratha"; "Aloo Paratha"; "paratha"]%string
            = [paratha_tip; GENERIC_TIP_1; GENERIC_TIP_2]).
Proof.
  split.
  - intros names. rewrite generate_alternatives_eq. repeat split.
    + apply first_seen_nodup.
    + now apply first_seen_in.
    + now apply first_seen_in.
  - eexists. repeat split; vm_compute; reflexivity.
Qed.

(** C8: [activity_suggestions] returns the same three strings for every
    total, followed by the longer-walk string exactly when the total
    exceeds 2200; it is there for 2500 and not for 1800. *)
Theorem C8_activity_suggestions :
  (forall total_kcal,
      activity_suggestions total_kcal
      = ([WALK_TIP; BODYWEIGHT_TIP; SPLIT_WALKS_TIP]
         ++ (if 2200 <? total_kcal then [LONGER_WALK_TIP] else []))%list
      /\ (In LONGER_WALK_TIP (activity_suggestions total_kcal)
          <-> 2200 < total_kcal))
  /\ In LONGER_WALK_TIP (activity_suggestions 2500)
  /\ ~ In LONGER_WALK_TIP (activity_suggestions 1800).
Proof.
  assert (Hfixed : ~ In LONGER_WALK_TIP [WALK_TIP; BODYWEIGHT_TIP; SPLIT_WALKS_TIP]).
  { simpl. intros [H|[H|[H|[]]]]; vm_compute in H; discriminate H. }
  assert (Heq : forall total_kcal,
             activity_suggestions total_kcal
             = ([WALK_TIP; BODYWEIGHT_TIP; SPLIT_WALKS_TIP]
                ++ (if 2200 <? total_kcal then [LONGER_WALK_TIP] else []))%list).
  { intros total_kcal. unfold activity_suggestions.
    rewrite Z.gtb_ltb. now destruct (2200 <? total_kcal). }
  assert (Hiff : forall total_kcal,
             In LONGER_WALK_TIP (activity_suggestions total_kcal)
             <-> 2200 < total_kcal).
  { intros total_kcal. rewrite Heq, in_app_iff.
    destruct (Z.ltb_spec 2200 total_kcal) as [Hlt|Hge]; split.
    - intros _. exact Hlt.
    - intros _. right. now left.
    - intros [H|[]]. now apply Hfixed in H.
    - lia. }
  repeat split.
  - apply Heq.
  - apply Hiff.
  - apply Hiff.
  - apply Hiff. lia.
  - intros H. apply Hiff in H. lia.
Qed.

(** C10: for every list of names, the empty one too, the result of
    [generate_alternatives] holds both generic tips; it is never empty
    and has at least two elements. *)
Theorem C10_generic_tips_always_present (names : list string) :
  In GENERIC_TIP_1 (generate_alternatives names)
  /\ In GENERIC_TIP_2 (generate_alternatives names)
  /\ generate_alternatives names <> []
  /\ (2 <= length (generate_alternatives names))%nat
  /\ generate_alternatives [] = [GENERIC_TIP_1; GENERIC_TIP_2].
Proof.
  assert (H1 : In GENERIC_TIP_1 (generate_alternatives names)).
  { rewrite generate_alternatives_eq, first_seen_in.
    unfold Spec.all_tips. rewrite in_app_iff. right. now left. }
  assert (H2 : In GENERIC_TIP_2 (generate_alternatives names)).
  { rewrite generate_alternatives_eq, first_seen_in.
    unfold Spec.all_tips. rewrite in_app_iff. right. right. now left. }
  assert (Hne : GENERIC_TIP_1 <> GENERIC_TIP_2)
    by (vm_compute; discriminate).
  repeat split; try assumption.
  - intros E. rewrite E in H1. destruct H1.
  - destruct (generate_alternatives names) as [|x [|y l]];
      cbn [In length] in *.
    + destruct H1.
    + destruct H1 as [E1|[]], H2 as [E2|[]]. congruence.
    + lia.
Qed.

(* ===================================================================== *)
(** ** The item list of the dashboard                                     *)
(* ===================================================================== *)

Section SplitFacts.

Lemma all_chars_nil (p : ascii -> bool) : Spec.all_chars p EmptyString.
Proof. intros l c r H. destruct l; discriminate. Qed.

Lemma all_chars_cons (p : ascii -> bool) (c : ascii) (s : string) :
  Spec.all_chars p (String c s) <-> p c = true /\ Spec.all_chars p s.
Proof.
  split.
  - intros H. split.
    + exact (H EmptyString c s eq_refl).
    + intros l c' r ->. exact (H (String c l) c' r eq_refl).
  - intros [Hc Hs] l c' r E. destruct l as [|x l]; simpl in E.
    + injection E as -> _. exact Hc.
    + injection E as _ E. exact (Hs l c' r E).
Qed.

(** [all_chars] can be computed. *)
Lemma all_chars_forallb (p : ascii -> bool) (s : string) :
  forallb p (list_ascii_of_string s) = true <-> Spec.all_chars p s.
Proof.
  induction s as [|c s IH]; simpl.
  - split; [intros _; apply all_chars_nil | reflexivity].
  - rewrite andb_true_iff, all_chars_cons, IH. reflexivity.
Qed.

Lemma re_split_from_not_nil (in_run : bool) (s : string) :
  App.re_split_from in_run s <> [].
Proof.
  revert in_run. induction s as [|c s IH]; intros in_run; simpl.
  - discriminate.
  - destruct (App.is_separator c).
    + destruct in_run; [apply IH | discriminate].
    + destruct (App.re_split_from false s); discriminate.
Qed.

Lemma re_split_from_clean (s : string) :
  forall in_run,
    Forall (Spec.all_chars (fun c => negb (App.is_separator c)))
      (App.re_split_from in_run s).
Proof.
  induction s as [|c s IH]; intros in_run; simpl.
  - constructor; [apply all_chars_nil | constructor].
  - destruct (App.is_separator c) eqn:E.
    + destruct in_run; [apply IH|].
      constructor; [apply all_chars_nil | apply IH].
    + specialize (IH false).
      destruct (App.re_split_from false s) as [|piece rest].
      * constructor; [|constructor].
        apply all_chars_cons. split; [now rewrite E | apply all_chars_nil].
      * inversion IH as [|? ? Hp Hr]; subst.
        constructor; [|assumption].
        apply all_chars_cons. split; [now rewrite E | assumption].
Qed.

Lemma re_split_from_whole (s : string) :
  Spec.all_chars (fun c => negb (App.is_separator c)) s ->
  forall in_run, App.re_split_from in_run s = [s].
Proof.
  induction s as [|c s IH]; intros Hs in_run; simpl; [reflexivity|].
  apply all_chars_cons in Hs. destruct Hs as [Hc Hs].
  apply negb_true_iff in Hc. rewrite Hc.
  now rewrite (IH Hs false).
Qed.

Lemma concat_pieces (s : string) :
  forall in_run,
    list_ascii_of_string (String.concat "" (App.re_split_from in_run s))
    = filter (fun c => negb (App.is_separator c)) (list_ascii_of_string s).
Proof.
  assert (Hcons : forall c piece rest,
             list_ascii_of_string (String.concat "" (String c piece :: rest))
             = c :: list_ascii_of_string (String.concat "" (piece :: rest))).
  { intros c piece rest. destruct rest; reflexivity. }
  assert (Hnil : forall l,
             l <> [] ->
             list_ascii_of_string (String.concat "" (EmptyString :: l))
             = list_ascii_of_string (String.concat "" l)).
  { intros l Hl. destruct l; [congruence | reflexivity]. }
  induction s as [|c s IH]; intros in_run; simpl; [reflexivity|].
  destruct (App.is_separator c) eqn:E; simpl.
  - destruct in_run; [apply IH|].
    rewrite Hnil by apply re_split_from_not_nil. apply IH.
  - specialize (IH false).
    pose proof (re_split_from_not_nil false s) as Hne.
    destruct (App.re_split_from false s) as [|piece rest]; [congruence|].
    rewrite Hcons. now f_equal.
Qed.

End SplitFacts.

(** X1: every item that the Add button hands to the resolver holds
    something besides whitespace, and holds no comma, no backslash and
    no letter n. *)
Theorem X1_items_hold_no_separator (raw_text : string) :
  Forall (fun it =>
            Py.strip it <> EmptyString
            /\ Spec.all_chars (fun c => negb (App.is_separator c)) it)
    (App.split_items raw_text).
Proof.
  unfold App.split_items, App.re_split.
  pose proof (re_split_from_clean raw_text false) as H.
  induction H as [|piece rest Hp _ IH]; simpl; [constructor|].
  destruct (String.eqb_spec (Py.strip piece) "") as [E|E]; simpl;
    [exact IH|].
  constructor; [split; assumption | exact IH].
Qed.

(** X2: a text that holds no comma, no backslash and no letter n, and is
    not blank, is one item, whole: a line break does not separate
    items. *)
Theorem X2_text_without_separator_is_one_item (raw_text : string) :
  Spec.all_chars (fun c => negb (App.is_separator c)) raw_text ->
  Py.strip raw_text <> EmptyString ->
  App.split_items raw_text = [raw_text].
Proof.
  intros Hs Hb. unfold App.split_items, App.re_split.
  rewrite (re_split_from_whole raw_text Hs false). simpl.
  destruct (String.eqb_spec (Py.strip raw_text) ""); [contradiction|].
  reflexivity.
Qed.

(** X2 at two lines, "2 roti" and "1 dal". *)
Lemma X2_text_without_separator_is_one_item_witness :
  App.split_items ("2 roti" ++ String (ascii_of_nat 10) "1 dal")
  = ["2 roti" ++ String (ascii_of_nat 10) "1 dal"]%string.
Proof.
  apply X2_text_without_separator_is_one_item.
  - apply all_chars_forallb. vm_compute. reflexivity.
  - vm_compute. discriminate.
Defined.

(** X3: the split drops the separator characters and nothing else: the
    pieces, put end to end, are the text without its commas, backslashes
    and letters n. *)
Theorem X3_split_loses_only_separators (raw_text : string) :
  list_ascii_of_string (String.concat "" (App.re_split raw_text))
  = filter (fun c => negb (App.is_separator c)) (list_ascii_of_string raw_text).
Proof. apply concat_pieces. Qed.

(* ===================================================================== *)
(** ** The Add button                                                     *)
(* ===================================================================== *)

Section AddFacts.

Lemma get_set_same {V : Type} (d : Py.dict V) (k : string) (v : V) :
  Py.get (App.set d k v) k = Some v.
Proof.
  induction d as [|[k' v'] d IH]; simpl.
  - now rewrite String.eqb_refl.
  - destruct (String.eqb k' k) eqn:E; simpl; rewrite E; [reflexivity | exact IH].
Qed.

Lemma get_set_other {V : Type} (d : Py.dict V) (k k' : string) (v : V) :
  k <> k' -> Py.get (App.set d k v) k' = Py.get d k'.
Proof.
  intros Hne. induction d as [|[k0 v0] d IH]; simpl.
  - apply String.eqb_neq in Hne. now rewrite Hne.
  - destruct (String.eqb_spec k0 k) as [->|Hk]; simpl.
    + apply String.eqb_neq in Hne. now rewrite Hne.
    + now rewrite IH.
Qed.

Lemma get_app_new {V : Type} (d : Py.dict V) (k : string) (v : V) :
  Py.get d k = None -> Py.get (d ++ [(k, v)])%list k = Some v.
Proof.
  induction d as [|[k0 v0] d IH]; simpl.
  - now rewrite String.eqb_refl.
  - destruct (String.eqb k0 k); [discriminate | exact IH].
Qed.

Lemma get_app_other {V : Type} (d : Py.dict V) (k k' : string) (v : V) :
  k <> k' -> Py.get (d ++ [(k, v)])%list k' = Py.get d k'.
Proof.
  intros Hne. induction d as [|[k0 v0] d IH]; simpl.
  - apply String.eqb_neq in Hne. now rewrite Hne.
  - now rewrite IH.
Qed.

(** The list of a day, empty for a day that is not there. *)
Lemma day_entries_eq (s : App.session) :
  App.day_entries s
  = match Py.get (App.s_entries s) (App.today s) with
    | Some l => l
    | None => []
    end.
Proof. reflexivity. Qed.

Lemma append_entry_day (m : App.day_map) (d : string) (e : App.entry) :
  Py.get (App.append_entry m d e) d
  = Some (match Py.get m d with Some l => l | None => [] end ++ [e])%list.
Proof.
  unfold App.append_entry. destruct (Py.get m d) as [l|] eqn:E.
  - apply get_set_same.
  - now apply get_app_new.
Qed.

Lemma append_entry_other (m : App.day_map) (d d' : string) (e : App.entry) :
  d <> d' -> Py.get (App.append_entry m d e) d' = Py.get m d'.
Proof.
  intros Hne. unfold App.append_entry. destruct (Py.get m d).
  - now apply get_set_other.
  - now apply get_app_other.
Qed.

Lemma sum_kcal_from (l : list App.entry) :
  forall acc, fold_left (fun a e => a + App.kcal e) l acc = acc + App.sum_kcal l.
Proof.
  unfold App.sum_kcal.
  induction l as [|e l IH]; intros acc; cbn [fold_left]; [lia|].
  rewrite (IH (acc + App.kcal e)), (IH (0 + App.kcal e)). lia.
Qed.

Lemma sum_kcal_app (l1 l2 : list App.entry) :
  App.sum_kcal (l1 ++ l2) = App.sum_kcal l1 + App.sum_kcal l2.
Proof.
  unfold App.sum_kcal at 1. rewrite fold_left_app.
  fold (App.sum_kcal l1). apply sum_kcal_from.
Qed.

Lemma resolve_within_limit (phrase : string) :
  Spec.digits_within_limit phrase ->
  exists nm k, estimate_calories_free_text phrase = Ok (nm, k).
Proof.
  intros Hlim.
  pose proof (extract_quantity_within_limit phrase Hlim) as Hq.
  destruct (resolve_item_shape phrase _ Hq) as (nm & k & H & _).
  now exists nm, k.
Qed.

(** The loop over a run of items that all resolve: one entry each, in
    order, on the day of the session; the other days stay. *)
Lemma add_loop_prefix (d : string) (pre rest : list string) :
  Forall Spec.digits_within_limit pre ->
  forall m added,
  exists m' es,
    Forall2 (fun it e =>
               App.raw e = Py.strip it
               /\ resolve it = Ok (App.name e, App.kcal e)) pre es
    /\ App.add_loop d (pre ++ rest) m added
       = App.add_loop d rest m' (added ++ es)%list
    /\ match Py.get m' d with Some l => l | None => [] end
       = (match Py.get m d with Some l => l | None => [] end ++ es)%list
    /\ (forall d', d <> d' -> Py.get m' d' = Py.get m d').
Proof.
  induction 1 as [|it pre Hit _ IH]; intros m added.
  - exists m, []. repeat split.
    + constructor.
    + now rewrite app_nil_r.
    + now rewrite app_nil_r.
  - destruct (resolve_within_limit it Hit) as (nm & k & Hr).
    destruct (IH (App.append_entry m d (App.mkEntry (Py.strip it) nm k))
                (added ++ [App.mkEntry (Py.strip it) nm k])%list)
      as (m' & es & Hes & Hloop & Hday & Hother).
    exists m', (App.mkEntry (Py.strip it) nm k :: es). repeat split.
    + constructor; [split; [reflexivity | exact Hr] | exact Hes].
    + simpl. rewrite Hr, Hloop, <- app_assoc. reflexivity.
    + rewrite Hday, append_entry_day, <- app_assoc. reflexivity.
    + intros d' Hne. rewrite (Hother d' Hne). now apply append_entry_other.
Qed.

(** [digits_within_limit] can be computed. *)
Lemma within_limit_check (phrase : string) :
  match Py.search_digits phrase with
  | Some run => (String.length run <=? Py.default_max_str_digits)%nat
  | None => true
  end = true ->
  Spec.digits_within_limit phrase.
Proof.
  intros H run Hrun. rewrite Hrun in H. now apply Nat.leb_le.
Qed.

Lemma store_entries_same (users : App.users_map) (u : string) (m : App.day_map) :
  exists acct,
    Py.get (App.store_entries users u m) u = Some acct
    /\ App.entries acct = m
    /\ match Py.get users u with
       | Some old => App.pw acct = App.pw old
                     /\ App.remember acct = App.remember old
       | None => App.pw acct = EmptyString /\ App.remember acct = true
       end.
Proof.
  unfold App.store_entries. destruct (Py.get users u) as [old|] eqn:E.
  - eexists. split; [apply get_set_same | simpl; auto].
  - eexists. split; [now apply get_app_new | simpl; auto].
Qed.

Lemma store_entries_other (users : App.users_map) (u v : string)
    (m : App.day_map) :
  u <> v -> Py.get (App.store_entries users u m) v = Py.get users v.
Proof.
  intros Hne. unfold App.store_entries. destruct (Py.get users u).
  - now apply get_set_other.
  - now apply get_app_other.
Qed.

End AddFacts.

(** X4: when every item of the text resolves, the Add button appends one
    entry per item, in the order of the text, to the day of the session:
    the entry holds the trimmed item and the name and calories [resolve]
    gives for the item as typed.  The other days of the session stay as
    they are, and the day's total rises by the calories added. *)
Theorem X4_add_appends_in_order (o : App.save_outcome) (raw_text u : string)
    (w : App.state) :
  Forall Spec.digits_within_limit (App.split_items raw_text) ->
  exists added,
    Forall2 (fun it e =>
               App.raw e = Py.strip it
               /\ resolve it = Ok (App.name e, App.kcal e))
      (App.split_items raw_text) added
    /\ snd (App.add_to_today o raw_text u w) = None
    /\ App.day_entries (App.sess (fst (App.add_to_today o raw_text u w)))
       = (App.day_entries (App.sess w) ++ added)%list
    /\ App.total_kcal (App.sess (fst (App.add_to_today o raw_text u w)))
       = App.total_kcal (App.sess w) + App.sum_kcal added
    /\ (forall d,
           App.today (App.sess w) <> d ->
           Py.get (App.s_entries (App.sess (fst (App.add_to_today o raw_text u w)))) d
           = Py.get (App.s_entries (App.sess w)) d).
Proof.
  intros Hall.
  destruct (add_loop_prefix (App.today (App.sess w)) (App.split_items raw_text)
              [] Hall (App.s_entries (App.sess w)) [])
    as (m' & es & Hes & Hloop & Hday & Hother).
  rewrite app_nil_r in Hloop. simpl in Hloop.
  exists es. unfold App.add_to_today. rewrite Hloop.
  assert (Hd : App.day_entries
                 (App.mkSession (App.user (App.sess w)) m' (App.today (App.sess w)))
               = (App.day_entries (App.sess w) ++ es)%list)
    by (rewrite !day_entries_eq; exact Hday).
  destruct es as [|e es]; cbn [fst snd App.sess];
    (split; [exact Hes|]); (split; [reflexivity|]);
    (split; [exact Hd|]);
    (split; [unfold App.total_kcal; rewrite Hd; apply sum_kcal_app | exact Hother]).
Qed.

(** X4 at "2 roti, 1 samosa" on an empty day. *)
Lemma X4_add_appends_in_order_witness :
  exists added,
    Forall2 (fun it e =>
               App.raw e = Py.strip it
               /\ resolve it = Ok (App.name e, App.kcal e))
      (App.split_items "2 roti, 1 samosa") added
    /\ snd (App.add_to_today App.Written "2 roti, 1 samosa" "asha"
              (App.mkState None (App.new_session "2024-05-01"))) = None
    /\ App.day_entries
         (App.sess (fst (App.add_to_today App.Written "2 roti, 1 samosa" "asha"
                           (App.mkState None (App.new_session "2024-05-01")))))
       = (App.day_entries (App.new_session "2024-05-01") ++ added)%list
    /\ App.total_kcal
         (App.sess (fst (App.add_to_today App.Written "2 roti, 1 samosa" "asha"
                           (App.mkState None (App.new_session "2024-05-01")))))
       = App.total_kcal (App.new_session "2024-05-01") + App.sum_kcal added
    /\ (forall d,
           "2024-05-01"%string <> d ->
           Py.get (App.s_entries
                     (App.sess (fst (App.add_to_today App.Written
                                       "2 roti, 1 samosa" "asha"
                                       (App.mkState None
                                          (App.new_session "2024-05-01")))))) d
           = Py.get (App.s_entries (App.new_session "2024-05-01")) d).
Proof.
  apply (X4_add_appends_in_order App.Written "2 roti, 1 samosa" "asha"
           (App.mkState None (App.new_session "2024-05-01"))).
  repeat (apply Forall_cons; [apply within_limit_check; vm_compute; reflexivity|]).
  apply Forall_nil.
Defined.

(** The file after the Add button. *)
Lemma add_saves_session_entries (raw_text u : string) (w : App.state) :
  Forall Spec.digits_within_limit (App.split_items raw_text) ->
  (App.split_items raw_text = [] ->
   forall o, App.file (fst (App.add_to_today o raw_text u w)) = App.file w)
  /\ (App.split_items raw_text <> [] ->
      exists users acct,
        App.file (fst (App.add_to_today App.Written raw_text u w)) = Some users
        /\ Py.get users u = Some acct
        /\ App.entries acct
           = App.s_entries (App.sess (fst (App.add_to_today App.Written raw_text u w)))
        /\ match Py.get (App.load_db (App.file w)) u with
           | Some old => App.pw acct = App.pw old
                         /\ App.remember acct = App.remember old
           | None => App.pw acct = EmptyString /\ App.remember acct = true
           end
        /\ (forall v, u <> v ->
                      Py.get users v = Py.get (App.load_db (App.file w)) v)).
Proof.
  intros Hall.
  destruct (add_loop_prefix (App.today (App.sess w)) (App.split_items raw_text)
              [] Hall (App.s_entries (App.sess w)) [])
    as (m' & es & Hes & Hloop & _ & _).
  rewrite app_nil_r in Hloop. simpl in Hloop.
  unfold App.add_to_today. rewrite Hloop. split.
  - intros Hnil o. rewrite Hnil in Hes. inversion Hes; subst. reflexivity.
  - intros Hne. destruct es as [|e es].
    + inversion Hes as [Hnil|]; subst. now rewrite <- Hnil in Hne.
    + cbn [fst App.file App.sess App.s_entries App.save_db].
      destruct (store_entries_same (App.load_db (App.file w)) u m')
        as (acct & Hget & Hent & Hold).
      exists (App.store_entries (App.load_db (App.file w)) u m'), acct.
      repeat split; try assumption.
      intros v Hv. now apply store_entries_other.
Qed.

(** X5: what the Add button saves.  With nothing to add the file is not
    written.  Otherwise, when the write succeeds, the account of the user
    holds the entries of the session, all days of it; its password hash
    and remember flag stay, or are "" and [True] for a user the file did
    not hold; the other accounts stay as they are. *)
Theorem X5_add_saves_session_entries (raw_text u : string) (w : App.state) :
  Forall Spec.digits_within_limit (App.split_items raw_text) ->
  (App.split_items raw_text = [] ->
   forall o, App.file (fst (App.add_to_today o raw_text u w)) = App.file w)
  /\ (App.split_items raw_text <> [] ->
      exists users acct,
        App.file (fst (App.add_to_today App.Written raw_text u w)) = Some users
        /\ Py.get users u = Some acct
        /\ App.entries acct
           = App.s_entries (App.sess (fst (App.add_to_today App.Written raw_text u w)))
        /\ match Py.get (App.load_db (App.file w)) u with
           | Some old => App.pw acct = App.pw old
                         /\ App.remember acct = App.remember old
           | None => App.pw acct = EmptyString /\ App.remember acct = true
           end
        /\ (forall v, u <> v ->
                      Py.get users v = Py.get (App.load_db (App.file w)) v)).
Proof. exact (add_saves_session_entries raw_text u w). Qed.

(** X5 at "2 roti" for a user the file does not hold. *)
Lemma X5_add_saves_session_entries_witness :
  exists users acct,
    App.file (fst (App.add_to_today App.Written "2 roti" "asha"
                     (App.mkState None (App.new_session "2024-05-01"))))
    = Some users
    /\ Py.get users "asha" = Some acct
    /\ App.entries acct
       = App.s_entries
           (App.sess (fst (App.add_to_today App.Written "2 roti" "asha"
                             (App.mkState None (App.new_session "2024-05-01")))))
    /\ match Py.get (App.load_db None) "asha" with
       | Some old => App.pw acct = App.pw old
                     /\ App.remember acct = App.remember old
       | None => App.pw acct = EmptyString /\ App.remember acct = true
       end
    /\ (forall v, "asha"%string <> v ->
                  Py.get users v = Py.get (App.load_db None) v).
Proof.
  apply (proj2 (X5_add_saves_session_entries "2 roti" "asha"
                  (App.mkState None (App.new_session "2024-05-01"))
                  (Forall_cons _
                     (within_limit_check "2 roti" eq_refl) (Forall_nil _)))).
  intros H. vm_compute in H. discriminate H.
Defined.

(** X6: when [resolve] raises on an item, the Add button lets the
    exception through; the entries of the items before it are in the
    session already, nothing of the items after it is, and the file is
    not written. *)
Theorem X6_add_stops_at_the_exception (o : App.save_outcome)
    (raw_text u : string) (w : App.state)
    (before : list string) (bad : string) (after : list string) (e : exn) :
  App.split_items raw_text = (before ++ bad :: after)%list ->
  Forall Spec.digits_within_limit before ->
  resolve bad = Raise e ->
  exists added,
    Forall2 (fun it e =>
               App.raw e = Py.strip it
               /\ resolve it = Ok (App.name e, App.kcal e)) before added
    /\ snd (App.add_to_today o raw_text u w) = Some e
    /\ App.file (fst (App.add_to_today o raw_text u w)) = App.file w
    /\ App.day_entries (App.sess (fst (App.add_to_today o raw_text u w)))
       = (App.day_entries (App.sess w) ++ added)%list.
Proof.
  intros Hsplit Hall Hbad.
  destruct (add_loop_prefix (App.today (App.sess w)) before (bad :: after)
              Hall (App.s_entries (App.sess w)) [])
    as (m' & es & Hes & Hloop & Hday & _).
  exists es. unfold App.add_to_today. rewrite Hsplit, Hloop.
  cbn [App.add_loop]. unfold resolve in Hbad. rewrite Hbad.
  cbn [fst snd App.file App.sess].
  repeat split; try assumption; try (rewrite !day_entries_eq; exact Hday).
Qed.

(** X6 at "2 roti", then a run of 4301 digits, then " dal". *)
Lemma X6_add_stops_at_the_exception_witness :
  exists added,
    Forall2 (fun it e =>
               App.raw e = Py.strip it
               /\ resolve it = Ok (App.name e, App.kcal e)) ["2 roti"%string] added
    /\ snd (App.add_to_today App.Written
              ("2 roti," ++ long_digit_run ++ ", dal") "asha"
              (App.mkState None (App.new_session "2024-05-01")))
       = Some ValueError
    /\ App.file (fst (App.add_to_today App.Written
                        ("2 roti," ++ long_digit_run ++ ", dal") "asha"
                        (App.mkState None (App.new_session "2024-05-01"))))
       = None
    /\ App.day_entries
         (App.sess (fst (App.add_to_today App.Written
                           ("2 roti," ++ long_digit_run ++ ", dal") "asha"
                           (App.mkState None (App.new_session "2024-05-01")))))
       = (App.day_entries (App.new_session "2024-05-01") ++ added)%list.
Proof.
  apply (X6_add_stops_at_the_exception App.Written
           ("2 roti," ++ long_digit_run ++ ", dal") "asha"
           (App.mkState None (App.new_session "2024-05-01"))
           ["2 roti"%string] long_digit_run [" dal"%string] ValueError).
  - vm_compute. reflexivity.
  - apply Forall_cons; [apply within_limit_check; vm_compute; reflexivity|].
    apply Forall_nil.
  - vm_compute. reflexivity.
Defined.

(* ===================================================================== *)
(** ** Accounts, sessions and the file                                    *)
(* ===================================================================== *)

Section AccountFacts.

Lemma set_absent {V : Type} (d : Py.dict V) (k : string) (v : V) :
  Py.get d k = None -> App.set d k v = (d ++ [(k, v)])%list.
Proof.
  induction d as [|[k0 v0] d IH]; simpl; [reflexivity|].
  destruct (String.eqb k0 k); [discriminate|].
  intros H. now rewrite IH.
Qed.

Lemma mem_false_get {V : Type} (d : Py.dict V) (k : string) :
  Py.mem d k = false <-> Py.get d k = None.
Proof.
  unfold Py.mem. destruct (Py.get d k); split; congruence.
Qed.

Lemma entrypoint_file (w : App.state) :
  App.file (App.entrypoint w) = App.file w.
Proof.
  unfold App.entrypoint. destruct (App.user (App.sess w)); [reflexivity|].
  destruct (map fst _) as [|u [|u' l]]; reflexivity.
Qed.

Lemma entrypoint_logged (w : App.state) (u : string) :
  App.user (App.sess w) = Some u -> App.entrypoint w = w.
Proof.
  intros H. unfold App.entrypoint. now rewrite H.
Qed.

(** The auto-login of a session that has just started. *)
Lemma entrypoint_new_session (f : option App.users_map) (d u : string) :
  remembered_users f = [u] ->
  App.entrypoint (App.mkState f (App.new_session d))
  = App.mkState f (App.mkSession (Some u) [] d).
Proof.
  unfold remembered_users, App.entrypoint. simpl. now intros ->.
Qed.

(** Writing an account with the flag it had leaves the list of the
    auto-login as it is. *)
Lemma remembered_set (users : App.users_map) (u : string) (a a' : App.account) :
  Py.get users u = Some a ->
  App.remember a' = App.remember a ->
  map fst (filter (fun ud => App.remember (snd ud)) (App.set users u a'))
  = map fst (filter (fun ud => App.remember (snd ud)) users).
Proof.
  induction users as [|[k0 v0] users IH]; simpl; [discriminate|].
  destruct (String.eqb_spec k0 u) as [->|Hne]; simpl.
  - intros H Hr. injection H as <-. rewrite Hr.
    destruct (App.remember v0); reflexivity.
  - intros H Hr. destruct (App.remember v0); simpl; now rewrite IH.
Qed.

Lemma accounts_kept_refl (u : string) (f : option App.users_map) :
  accounts_kept u f f.
Proof.
  right. intros v a H. exists a. repeat split; assumption.
Qed.

Lemma accounts_kept_set (u : string) (f : option App.users_map)
    (o : App.save_outcome) (a a' : App.account) :
  Py.get (App.load_db f) u = Some a ->
  App.pw a' = App.pw a ->
  accounts_kept u f (App.save_db o (App.set (App.load_db f) u a') f).
Proof.
  intros Hu Hpw. destruct o; cbn [App.save_db].
  - right. intros v b Hv. cbn [App.load_db]. destruct (String.eqb_spec u v) as [<-|Hne].
    + exists a'. rewrite get_set_same. rewrite Hu in Hv. injection Hv as <-.
      repeat split; [assumption | congruence].
    + exists b. rewrite get_set_other by assumption.
      repeat split; assumption.
  - apply accounts_kept_refl.
  - now left.
Qed.

Lemma accounts_kept_new (u : string) (f : option App.users_map)
    (o : App.save_outcome) (users' : App.users_map) :
  Py.get (App.load_db f) u = None ->
  (forall v, u <> v -> Py.get users' v = Py.get (App.load_db f) v) ->
  accounts_kept u f (App.save_db o users' f).
Proof.
  intros Hu Hother. destruct o; cbn [App.save_db].
  - right. intros v b Hv. cbn [App.load_db]. exists b.
    assert (Hne : u <> v) by (intros ->; congruence).
    rewrite (Hother v Hne). repeat split; assumption.
  - apply accounts_kept_refl.
  - now left.
Qed.

(** The signup that goes through. *)
Lemma signup_accepted (_hash_pw : string -> string) (o : App.save_outcome)
    (u p : string) (w : App.state) :
  u <> EmptyString ->
  p <> EmptyString ->
  Py.mem (App.load_db (App.file w)) u = false ->
  App.signup _hash_pw o u p w
  = (App.mkState
       (App.save_db o
          (App.set (App.load_db (App.file w)) u
             (App.mkAccount (_hash_pw p) [] true))
          (App.file w))
       (App.mkSession (Some u) [] (App.today (App.sess w))),
     true).
Proof.
  intros Hu Hp Hnew. apply String.eqb_neq in Hu, Hp.
  unfold App.signup. rewrite Hu, Hp, Hnew. cbn [orb].
  unfold App.rerun. now rewrite (entrypoint_logged _ u) by reflexivity.
Qed.

End AccountFacts.

(** X7: signing up and then logging in.  After a signup that was saved,
    a login with the same name and password succeeds from every
    session: it sets the user of the session and starts from the empty
    entries of the new account. *)
Theorem X7_signup_then_login (_hash_pw : string -> string) (u p : string)
    (w : App.state) :
  u <> EmptyString ->
  p <> EmptyString ->
  Py.mem (App.load_db (App.file w)) u = false ->
  snd (App.signup _hash_pw App.Written u p w) = true
  /\ App.user (App.sess (fst (App.signup _hash_pw App.Written u p w))) = Some u
  /\ forall o remember_box s,
      let w' := App.mkState
                  (App.file (fst (App.signup _hash_pw App.Written u p w))) s in
      snd (App.login _hash_pw o u p remember_box w') = true
      /\ App.user (App.sess (fst (App.login _hash_pw o u p remember_box w')))
         = Some u
      /\ App.s_entries (App.sess (fst (App.login _hash_pw o u p remember_box w')))
         = [].
Proof.
  intros Hu Hp Hnew.
  apply String.eqb_neq in Hu, Hp.
  unfold App.signup. rewrite Hu, Hp, Hnew. cbn [orb fst snd].
  unfold App.rerun.
  rewrite (entrypoint_logged _ u) by reflexivity.
  cbn [App.file App.sess App.user App.save_db].
  repeat split.
  - unfold App.login. cbn [App.file App.load_db].
    rewrite get_set_same. cbn [App.pw]. rewrite String.eqb_refl. reflexivity.
  - unfold App.login. cbn [App.file App.load_db].
    rewrite get_set_same. cbn [App.pw]. rewrite String.eqb_refl.
    cbn [fst]. unfold App.rerun.
    rewrite (entrypoint_logged _ u) by reflexivity. reflexivity.
  - unfold App.login. cbn [App.file App.load_db].
    rewrite get_set_same. cbn [App.pw]. rewrite String.eqb_refl.
    cbn [fst]. unfold App.rerun.
    rewrite (entrypoint_logged _ u) by reflexivity. reflexivity.
Qed.

(** X7 for the first account of a file that is not there; any function
    can stand for the hash. *)
Lemma X7_signup_then_login_witness :
  snd (App.signup (fun pw => pw) App.Written "asha" "s3cret"
         (App.mkState None (App.new_session "2024-05-01"))) = true
  /\ App.user (App.sess (fst (App.signup (fun pw => pw) App.Written "asha"
                                "s3cret"
                                (App.mkState None (App.new_session "2024-05-01")))))
     = Some "asha"%string
  /\ forall o remember_box s,
      let w' := App.mkState
                  (App.file (fst (App.signup (fun pw => pw) App.Written "asha"
                                    "s3cret"
                                    (App.mkState None
                                       (App.new_session "2024-05-01"))))) s in
      snd (App.login (fun pw => pw) o "asha" "s3cret" remember_box w') = true
      /\ App.user (App.sess (fst (App.login (fun pw => pw) o "asha" "s3cret"
                                    remember_box w')))
         = Some "asha"%string
      /\ App.s_entries (App.sess (fst (App.login (fun pw => pw) o "asha"
                                         "s3cret" remember_box w')))
         = [].
Proof.
  apply (X7_signup_then_login (fun pw => pw) "asha" "s3cret"
           (App.mkState None (App.new_session "2024-05-01"))).
  - discriminate.
  - discriminate.
  - reflexivity.
Defined.

(** X8: no password after the first signup.  When a signup is saved to a
    file that held no remembered account, every session that starts
    afterwards is logged in as the new user by the entry point, with no
    login, and shows no entries. *)
Theorem X8_new_session_needs_no_password (_hash_pw : string -> string)
    (u p d : string) (w : App.state) :
  u <> EmptyString ->
  p <> EmptyString ->
  Py.mem (App.load_db (App.file w)) u = false ->
  remembered_users (App.file w) = [] ->
  let f := App.file (fst (App.signup _hash_pw App.Written u p w)) in
  let w' := App.entrypoint (App.mkState f (App.new_session d)) in
  App.user (App.sess w') = Some u
  /\ App.logged_in (App.sess w') = true
  /\ App.s_entries (App.sess w') = [].
Proof.
  intros Hu Hp Hnew Hrem.
  rewrite (signup_accepted _hash_pw App.Written u p w Hu Hp Hnew).
  cbn [fst App.file App.save_db].
  rewrite (entrypoint_new_session _ d u).
  - cbn [App.sess App.user App.s_entries]. repeat split.
    unfold App.logged_in. cbn [App.user].
    apply String.eqb_neq in Hu. now rewrite Hu.
  - unfold remembered_users in *. cbn [App.load_db].
    apply mem_false_get in Hnew. rewrite (set_absent _ _ _ Hnew).
    rewrite filter_app, map_app, Hrem. reflexivity.
Qed.

(** X8 for the first account of a file that is not there. *)
Lemma X8_new_session_needs_no_password_witness :
  let f := App.file (fst (App.signup (fun pw => pw) App.Written "asha" "s3cret"
                            (App.mkState None (App.new_session "2024-05-01")))) in
  let w' := App.entrypoint (App.mkState f (App.new_session "2024-05-02")) in
  App.user (App.sess w') = Some "asha"%string
  /\ App.logged_in (App.sess w') = true
  /\ App.s_entries (App.sess w') = [].
Proof.
  apply (X8_new_session_needs_no_password (fun pw => pw) "asha" "s3cret"
           "2024-05-02" (App.mkState None (App.new_session "2024-05-01"))).
  - discriminate.
  - discriminate.
  - reflexivity.
  - reflexivity.
Defined.

(** X9: entries lost after the auto-login.  The entry point logs the
    only remembered user in without loading the entries of the account.
    The first Add that is saved then replaces the stored entries of the
    account by those of the session: the account holds the day of the
    session with the added entries and no other day, whatever it held
    before. *)
Theorem X9_add_after_auto_login_replaces_stored_entries
    (f : option App.users_map) (d u raw_text : string) (acct : App.account) :
  remembered_users f = [u] ->
  Py.get (App.load_db f) u = Some acct ->
  App.split_items raw_text <> [] ->
  Forall Spec.digits_within_limit (App.split_items raw_text) ->
  let w := App.entrypoint (App.mkState f (App.new_session d)) in
  exists users acct' added,
    App.file (fst (App.add_to_today App.Written raw_text u w)) = Some users
    /\ Py.get users u = Some acct'
    /\ App.pw acct' = App.pw acct
    /\ Forall2 (fun it e =>
                  App.raw e = Py.strip it
                  /\ resolve it = Ok (App.name e, App.kcal e))
         (App.split_items raw_text) added
    /\ Py.get (App.entries acct') d = Some added
    /\ (forall d', d <> d' -> Py.get (App.entries acct') d' = None).
Proof.
  intros Hrem Hacct Hne Hall w. subst w.
  rewrite (entrypoint_new_session f d u Hrem).
  destruct (add_loop_prefix d (App.split_items raw_text) [] Hall [] [])
    as (m' & es & Hes & Hloop & Hday & Hother).
  rewrite app_nil_r in Hloop. simpl in Hloop, Hday.
  unfold App.add_to_today. cbn [App.sess App.today App.s_entries App.file].
  rewrite Hloop.
  destruct es as [|e es].
  { inversion Hes as [Hnil|]; subst. now rewrite <- Hnil in Hne. }
  cbn [fst App.file App.save_db].
  destruct (store_entries_same (App.load_db f) u m')
    as (acct' & Hget & Hent & Hold).
  rewrite Hacct in Hold. destruct Hold as [Hpw _].
  exists (App.store_entries (App.load_db f) u m'), acct', (e :: es).
  repeat split; try assumption.
  - rewrite Hent. destruct (Py.get m' d) as [l|]; [now subst | discriminate].
  - intros d' Hd. rewrite Hent. now rewrite (Hother d' Hd).
Qed.

(** X9 for an account that holds a day of May; "1 samosa" is added in
    June. *)
Lemma X9_add_after_auto_login_replaces_stored_entries_witness :
  let acct :=
    App.mkAccount "h"
      [("2024-05-01"%string, [App.mkEntry "2 roti" "roti" 160])] true in
  let w := App.entrypoint
             (App.mkState (Some [("asha"%string, acct)])
                (App.new_session "2024-06-01")) in
  exists users acct' added,
    App.file (fst (App.add_to_today App.Written "1 samosa" "asha" w))
    = Some users
    /\ Py.get users "asha" = Some acct'
    /\ App.pw acct' = App.pw acct
    /\ Forall2 (fun it e =>
                  App.raw e = Py.strip it
                  /\ resolve it = Ok (App.name e, App.kcal e))
         (App.split_items "1 samosa") added
    /\ Py.get (App.entries acct') "2024-06-01" = Some added
    /\ (forall d', "2024-06-01"%string <> d' ->
                   Py.get (App.entries acct') d' = None).
Proof.
  apply (X9_add_after_auto_login_replaces_stored_entries
           (Some [("asha"%string,
                   App.mkAccount "h"
                     [("2024-05-01"%string, [App.mkEntry "2 roti" "roti" 160])]
                     true)])
           "2024-06-01" "asha" "1 samosa").
  - reflexivity.
  - reflexivity.
  - intros H. vm_compute in H. discriminate H.
  - apply Forall_cons; [apply within_limit_check; vm_compute; reflexivity|].
    apply Forall_nil.
Defined.

(** X10: Logout after the auto-login.  When the entry point has logged
    the only remembered user in, a Logout that is saved writes the empty
    entries of the session over those of the account, and the rerun that
    follows logs the same user in again. *)
Theorem X10_logout_after_auto_login (f : option App.users_map) (d u : string)
    (acct : App.account) :
  remembered_users f = [u] ->
  Py.get (App.load_db f) u = Some acct ->
  let w := App.entrypoint (App.mkState f (App.new_session d)) in
  let w' := App.logout App.Written u w in
  App.user (App.sess w') = Some u
  /\ Py.get (App.load_db (App.file w')) u
     = Some (App.mkAccount (App.pw acct) [] (App.remember acct)).
Proof.
  intros Hrem Hacct w w'. subst w' w.
  rewrite (entrypoint_new_session f d u Hrem).
  unfold App.logout. cbn [App.file App.sess App.s_entries App.today].
  rewrite Hacct. cbn [App.save_db]. unfold App.rerun. split.
  - unfold App.entrypoint.
    cbn [App.sess App.user App.file App.load_db App.s_entries App.today].
    rewrite (remembered_set (App.load_db f) u acct) by (assumption || reflexivity).
    unfold remembered_users in Hrem. rewrite Hrem. reflexivity.
  - rewrite entrypoint_file. cbn [App.file App.load_db]. apply get_set_same.
Qed.

(** X10 for an account that holds a day of May. *)
Lemma X10_logout_after_auto_login_witness :
  let acct :=
    App.mkAccount "h"
      [("2024-05-01"%string, [App.mkEntry "2 roti" "roti" 160])] true in
  let w := App.entrypoint
             (App.mkState (Some [("asha"%string, acct)])
                (App.new_session "2024-06-01")) in
  let w' := App.logout App.Written "asha" w in
  App.user (App.sess w') = Some "asha"%string
  /\ Py.get (App.load_db (App.file w')) "asha"
     = Some (App.mkAccount (App.pw acct) [] (App.remember acct)).
Proof.
  apply (X10_logout_after_auto_login
           (Some [("asha"%string,
                   App.mkAccount "h"
                     [("2024-05-01"%string, [App.mkEntry "2 roti" "roti" 160])]
                     true)])
           "2024-06-01" "asha").
  - reflexivity.
  - reflexivity.
Defined.

(** X11: a signup that could not be saved.  The handler reports success
    and sets the user of the session all the same; the file holds no
    such account, so a later login with the same name fails whatever the
    password, and Clear today raises a [KeyError]. *)
Theorem X11_signup_without_save (_hash_pw : string -> string)
    (o : App.save_outcome) (u p : string) (w : App.state) :
  o <> App.Written ->
  u <> EmptyString ->
  p <> EmptyString ->
  Py.mem (App.load_db (App.file w)) u = false ->
  let w' := fst (App.signup _hash_pw o u p w) in
  snd (App.signup _hash_pw o u p w) = true
  /\ App.user (App.sess w') = Some u
  /\ Py.get (App.load_db (App.file w')) u = None
  /\ (forall o' p' remember_box s,
         snd (App.login _hash_pw o' u p' remember_box
                (App.mkState (App.file w') s)) = false)
  /\ (forall o', snd (App.clear_today o' u w') = Some KeyError).
Proof.
  intros Ho Hu Hp Hnew.
  rewrite (signup_accepted _hash_pw o u p w Hu Hp Hnew).
  cbn [fst snd App.file App.sess App.user].
  apply mem_false_get in Hnew.
  assert (Hfile : Py.get (App.load_db
                            (App.save_db o
                               (App.set (App.load_db (App.file w)) u
                                  (App.mkAccount (_hash_pw p) [] true))
                               (App.file w))) u = None).
  { destruct o; [congruence | exact Hnew | reflexivity]. }
  repeat split.
  - exact Hfile.
  - intros o' p' remember_box s. unfold App.login. cbn [App.file].
    now rewrite Hfile.
  - intros o'. unfold App.clear_today. cbn [App.file]. now rewrite Hfile.
Qed.

(** X11 when [open] fails on a file that is not there. *)
Lemma X11_signup_without_save_witness :
  let w' := fst (App.signup (fun pw => pw) App.Untouched "asha" "s3cret"
                   (App.mkState None (App.new_session "2024-05-01"))) in
  snd (App.signup (fun pw => pw) App.Untouched "asha" "s3cret"
         (App.mkState None (App.new_session "2024-05-01"))) = true
  /\ App.user (App.sess w') = Some "asha"%string
  /\ Py.get (App.load_db (App.file w')) "asha" = None
  /\ (forall o' p' remember_box s,
         snd (App.login (fun pw => pw) o' "asha" p' remember_box
                (App.mkState (App.file w') s)) = false)
  /\ (forall o', snd (App.clear_today o' "asha" w') = Some KeyError).
Proof.
  apply (X11_signup_without_save (fun pw => pw) App.Untouched "asha" "s3cret"
           (App.mkState None (App.new_session "2024-05-01"))).
  - discriminate.
  - discriminate.
  - discriminate.
  - reflexivity.
Defined.

(** X12: no click changes a stored password hash or the account of
    another user.  After each handler, whatever [save_db] did, the file
    can no longer be read (a write that failed) or every account it held
    is still there with its password hash, and is as it was when it is
    not the account of the user who clicked. *)
Theorem X12_accounts_kept_by_every_handler (_hash_pw : string -> string)
    (o : App.save_outcome) (w : App.state) :
  (forall uname p remember_box,
      accounts_kept uname (App.file w)
        (App.file (fst (App.login _hash_pw o uname p remember_box w))))
  /\ (forall u p,
         accounts_kept u (App.file w)
           (App.file (fst (App.signup _hash_pw o u p w))))
  /\ (forall raw_text u,
         accounts_kept u (App.file w)
           (App.file (fst (App.add_to_today o raw_text u w))))
  /\ (forall u,
         accounts_kept u (App.file w) (App.file (fst (App.clear_today o u w))))
  /\ (forall u, accounts_kept u (App.file w) (App.file (App.logout o u w)))
  /\ (forall u, accounts_kept u (App.file w) (App.file (App.reset_account o u w))).
Proof.
  repeat split.
  - intros uname p remember_box. unfold App.login.
    destruct (Py.get (App.load_db (App.file w)) uname) as [acct|] eqn:E;
      [|apply accounts_kept_refl].
    destruct (String.eqb (App.pw acct) (_hash_pw p)); [|apply accounts_kept_refl].
    cbn [fst]. unfold App.rerun. rewrite entrypoint_file. cbn [App.file].
    destruct remember_box; [|apply accounts_kept_refl].
    now apply (accounts_kept_set uname (App.file w) o acct).
  - intros u p. unfold App.signup.
    destruct (String.eqb u "" || String.eqb p ""); [apply accounts_kept_refl|].
    destruct (Py.mem (App.load_db (App.file w)) u) eqn:E;
      [apply accounts_kept_refl|].
    cbn [fst]. unfold App.rerun. rewrite entrypoint_file. cbn [App.file].
    apply mem_false_get in E. apply accounts_kept_new; [assumption|].
    intros v Hv. now apply get_set_other.
  - intros raw_text u. unfold App.add_to_today.
    destruct (App.add_loop _ _ _ _) as [[m added] raised].
    destruct raised; [apply accounts_kept_refl|].
    destruct added; [apply accounts_kept_refl|].
    cbn [fst App.file]. unfold App.store_entries.
    destruct (Py.get (App.load_db (App.file w)) u) as [acct|] eqn:E.
    + now apply (accounts_kept_set u (App.file w) o acct).
    + apply accounts_kept_new; [assumption|].
      intros v Hv. now apply get_app_other.
  - intros u. unfold App.clear_today.
    destruct (Py.get (App.load_db (App.file w)) u) as [acct|] eqn:E;
      [|apply accounts_kept_refl].
    cbn [fst App.file]. now apply (accounts_kept_set u (App.file w) o acct).
  - intros u. unfold App.logout, App.rerun. rewrite entrypoint_file.
    cbn [App.file].
    destruct (Py.get (App.load_db (App.file w)) u) as [acct|] eqn:E;
      [|apply accounts_kept_refl].
    now apply (accounts_kept_set u (App.file w) o acct).
  - intros u. unfold App.reset_account. cbn [App.file].
    destruct (Py.get (App.load_db (App.file w)) u) as [acct|] eqn:E;
      [|apply accounts_kept_refl].
    now apply (accounts_kept_set u (App.file w) o acct).
Qed.

(* ===================================================================== *)
(** ** More on the resolver                                               *)
(* ===================================================================== *)

Section ResolverBounds.

Lemma food_db_values_range (k : string) (v : Z) :
  Py.get FOOD_DB k = Some v -> 58 <= v <= 550.
Proof.
  intros H. apply get_in in H.
  assert (Hall : Forall (fun kv => 58 <= snd kv <= 550) FOOD_DB)
    by (repeat constructor; simpl; lia).
  rewrite Forall_forall in Hall. exact (Hall _ H).
Qed.

Lemma food_db_keys_length (k : string) :
  In k (Py.keys FOOD_DB) -> (4 <= String.length k <= 28)%nat.
Proof.
  intros H.
  assert (Hall : Forall (fun k => (4 <= String.length k <= 28)%nat)
                   (Py.keys FOOD_DB))
    by (repeat constructor; simpl; lia).
  rewrite Forall_forall in Hall. exact (Hall _ H).
Qed.

Lemma length_list_ascii (s : string) :
  length (list_ascii_of_string s) = String.length s.
Proof. induction s as [|c s IH]; simpl; [reflexivity | now rewrite IH]. Qed.

(** The cheapest of the three tests of [get_close_matches] fails on
    lengths that are too far apart: [2 * min(la, lb) / (la + lb)] is
    below 0.7. *)
Lemma real_quick_ratio_low (a b : list ascii) :
  (20 * Nat.min (length a) (length b) < 7 * (length a + length b))%nat ->
  Qle_bool (7 # 10) (Difflib.real_quick_ratio a b) = false.
Proof.
  intros H. unfold Difflib.real_quick_ratio, Difflib.calculate_ratio.
  destruct (length a + length b)%nat as [|n] eqn:E; [lia|].
  destruct (Qle_bool (7 # 10) _) eqn:Q; [|reflexivity].
  apply Qle_bool_iff in Q. unfold Qle in Q. cbn [Qnum Qden] in Q.
  rewrite <- Pos.of_nat_succ, Zpos_P_of_succ_nat in Q. lia.
Qed.

Lemma scored_nil_by_length (word : string) (possibilities : list string) :
  Forall (fun x =>
            (20 * Nat.min (String.length x) (String.length word)
             < 7 * (String.length x + String.length word))%nat)
    possibilities ->
  Difflib.scored (7 # 10) word possibilities = [].
Proof.
  induction 1 as [|x rest Hx _ IH]; simpl; [reflexivity|].
  unfold Difflib.close_enough.
  rewrite real_quick_ratio_low by (rewrite !length_list_ascii; exact Hx).
  exact IH.
Qed.

End ResolverBounds.

(** X13: every item that [resolve] returns has between 58 and 680 kcal
    for each unit of the quantity, so at least 58 kcal: nothing resolves
    to zero calories. *)
Theorem X13_calories_per_unit_bounds (phrase nm : string) (cals : Z) :
  resolve phrase = Ok (nm, cals) ->
  exists qty,
    extract_quantity phrase = Ok qty
    /\ 1 <= qty
    /\ 58 * qty <= cals <= 680 * qty.
Proof.
  intros H.
  destruct (extract_quantity phrase) as [qty|e] eqn:Hq;
    [|rewrite (resolve_raises phrase e Hq) in H; discriminate].
  exists qty. pose proof (extract_quantity_positive phrase qty Hq) as Hpos.
  split; [reflexivity|]. split; [assumption|].
  destruct (normalize_food_name_total phrase) as [n Hn].
  destruct (Py.mem FOOD_DB n) eqn:Em.
  - destruct (subscript_mem FOOD_DB n Em) as (v & Hv & _).
    rewrite (resolve_catalog phrase n qty v Hq Hn Hv) in H.
    injection H as _ <-. pose proof (food_db_values_range n v Hv). nia.
  - rewrite (resolve_estimated phrase n qty Hq Hn Em) in H.
    injection H as _ <-. unfold Spec.generic_estimate.
    pose proof (baseline_bounds phrase). nia.
Qed.

(** X13 at "3 steamed momos": 300 kcal for the quantity 3. *)
Lemma X13_calories_per_unit_bounds_witness :
  exists qty,
    extract_quantity "3 steamed momos" = Ok qty
    /\ 1 <= qty
    /\ 58 * qty <= 300 <= 680 * qty.
Proof.
  apply (X13_calories_per_unit_bounds "3 steamed momos"
           "3 steamed momos (estimated)" 300).
  vm_compute. reflexivity.
Defined.

(** X14: the fuzzy step cannot fire on very short or long phrases.  When
    the normalized phrase holds no synonym key and has fewer than 3 or
    more than 52 characters, no catalog key passes the similarity
    cutoff: name resolution returns the normalized phrase, which is no
    catalog key, and the item goes to the generic estimator. *)
Theorem X14_no_close_match_by_length (phrase : string) :
  first_synonym SYNONYMS (normalized phrase) = None ->
  (String.length (normalized phrase) < 3
   \/ 52 < String.length (normalized phrase))%nat ->
  normalize_food_name phrase = Ok (normalized phrase)
  /\ Py.mem FOOD_DB (normalized phrase) = false.
Proof.
  intros Hsyn Hlen.
  assert (Hmem : Py.mem FOOD_DB (normalized phrase) = false).
  { destruct (Py.mem FOOD_DB (normalized phrase)) eqn:E; [|reflexivity].
    apply mem_true_in_keys, food_db_keys_length in E. lia. }
  split; [|exact Hmem].
  unfold normalize_food_name. rewrite Hsyn, Hmem, get_close_matches_cutoff.
  rewrite scored_nil_by_length; [reflexivity|].
  apply Forall_forall. intros k Hk.
  apply food_db_keys_length in Hk. lia.
Qed.

(** X14 at a description of 56 characters. *)
Lemma X14_no_close_match_by_length_witness :
  normalize_food_name "roti with a big bowl of mixed vegetables and some pickle"
  = Ok (normalized "roti with a big bowl of mixed vegetables and some pickle")
  /\ Py.mem FOOD_DB
       (normalized "roti with a big bowl of mixed vegetables and some pickle")
     = false.
Proof.
  apply X14_no_close_match_by_length.
  - vm_compute. reflexivity.
  - right. vm_compute. lia.
Defined.

Section NormalizationFacts.

Lemma isspace_lower_char (c : ascii) :
  Py.isspace (Py.lower_char c) = Py.isspace c.
Proof. destruct c as [[] [] [] [] [] [] [] []]; reflexivity. Qed.

Lemma lower_char_idem (c : ascii) :
  Py.lower_char (Py.lower_char c) = Py.lower_char c.
Proof. destruct c as [[] [] [] [] [] [] [] []]; reflexivity. Qed.

Lemma lower_idem (s : string) : Py.lower (Py.lower s) = Py.lower s.
Proof.
  induction s as [|c s IH]; simpl; [reflexivity|].
  now rewrite lower_char_idem, IH.
Qed.

Lemma lstrip_lower (s : string) :
  Py.lstrip (Py.lower s) = Py.lower (Py.lstrip s).
Proof.
  induction s as [|c s IH]; simpl; [reflexivity|].
  rewrite isspace_lower_char. destruct (Py.isspace c); [exact IH | reflexivity].
Qed.

Lemma rstrip_lower (s : string) :
  Py.rstrip (Py.lower s) = Py.lower (Py.rstrip s).
Proof.
  induction s as [|c s IH]; simpl; [reflexivity|].
  rewrite IH, isspace_lower_char.
  destruct (Py.rstrip s) as [|c' r]; simpl.
  - destruct (Py.isspace c); reflexivity.
  - reflexivity.
Qed.

Lemma strip_lower (s : string) :
  Py.strip (Py.lower s) = Py.lower (Py.strip s).
Proof. unfold Py.strip. now rewrite lstrip_lower, rstrip_lower. Qed.

(** What [rstrip] returns does not end in whitespace, and starts as its
    argument does. *)
Lemma rstrip_idem (s : string) : Py.rstrip (Py.rstrip s) = Py.rstrip s.
Proof.
  induction s as [|c s IH]; simpl; [reflexivity|].
  destruct (Py.rstrip s) as [|c' r] eqn:E.
  - destruct (Py.isspace c) eqn:Ec; simpl; [reflexivity | now rewrite Ec].
  - change (Py.rstrip (String c (String c' r)))
      with (match Py.rstrip (String c' r) with
            | EmptyString =>
                if Py.isspace c then EmptyString else String c EmptyString
            | x => String c x
            end).
    now rewrite IH.
Qed.

Lemma rstrip_head (c : ascii) (s : string) :
  Py.isspace c = false -> exists r, Py.rstrip (String c s) = String c r.
Proof.
  intros Hc. simpl. destruct (Py.rstrip s) as [|c' r].
  - rewrite Hc. now exists EmptyString.
  - now exists (String c' r).
Qed.

Lemma lstrip_head (s : string) :
  Py.lstrip s = EmptyString
  \/ exists c r, Py.lstrip s = String c r /\ Py.isspace c = false.
Proof.
  induction s as [|c s IH]; simpl; [now left|].
  destruct (Py.isspace c) eqn:E; [exact IH|].
  right. now exists c, s.
Qed.

Lemma strip_idem (s : string) : Py.strip (Py.strip s) = Py.strip s.
Proof.
  unfold Py.strip.
  destruct (lstrip_head s) as [E|(c & r & E & Hc)]; rewrite E.
  - reflexivity.
  - destruct (rstrip_head c r Hc) as [r' Er]. rewrite Er.
    change (Py.lstrip (String c r'))
      with (if Py.isspace c then Py.lstrip r' else String c r').
    rewrite Hc, <- Er. apply rstrip_idem.
Qed.

Lemma normalized_lower (s : string) : normalized (Py.lower s) = normalized s.
Proof. unfold normalized. now rewrite strip_lower, lower_idem. Qed.

Lemma normalized_strip (s : string) : normalized (Py.strip s) = normalized s.
Proof. unfold normalized. now rewrite strip_idem. Qed.

End NormalizationFacts.

(** X15: name resolution does not see the case of the letters nor the
    whitespace around the phrase: the lower-cased phrase and the trimmed
    phrase resolve to the name of the phrase as typed. *)
Theorem X15_name_resolution_ignores_case_and_margins (phrase : string) :
  normalize_food_name (Py.lower phrase) = normalize_food_name phrase
  /\ normalize_food_name (Py.strip phrase) = normalize_food_name phrase.
Proof.
  unfold normalize_food_name.
  now rewrite normalized_lower, normalized_strip.
Qed.

(* ===================================================================== *)
(** ** More on the tips                                                   *)
(* ===================================================================== *)

Section TipFacts.

Lemma matched_tips_in_table (nm tip : string) :
  In tip (Spec.matched_tips nm) -> In tip (map snd ALT_SUGGESTIONS).
Proof.
  unfold Spec.matched_tips. rewrite in_map_iff.
  intros [kv [<- H]]. apply filter_In in H. apply in_map. tauto.
Qed.

Lemma collected_in_table (names : list string) (tip : string) :
  In tip (flat_map Spec.matched_tips names) -> In tip (map snd ALT_SUGGESTIONS).
Proof.
  rewrite in_flat_map. intros [nm [_ H]]. exact (matched_tips_in_table nm tip H).
Qed.

Lemma generic_tips_not_in_table :
  ~ In GENERIC_TIP_1 (map snd ALT_SUGGESTIONS)
  /\ ~ In GENERIC_TIP_2 (map snd ALT_SUGGESTIONS)
  /\ GENERIC_TIP_1 <> GENERIC_TIP_2.
Proof.
  repeat split.
  - intros H. simpl in H.
    repeat (destruct H as [H|H]; [vm_compute in H; discriminate H|]).
    destruct H.
  - intros H. simpl in H.
    repeat (destruct H as [H|H]; [vm_compute in H; discriminate H|]).
    destruct H.
  - vm_compute. discriminate.
Qed.

Lemma filter_all (f : string -> bool) (l : list string) :
  (forall x, In x l -> f x = true) -> filter f l = l.
Proof.
  induction l as [|x l IH]; intros H; simpl; [reflexivity|].
  rewrite (H x) by now left. rewrite IH; [reflexivity|].
  intros y Hy. apply H. now right.
Qed.

Lemma first_seen_app_fresh (l : list string) (x : string) :
  ~ In x l -> Spec.first_seen (l ++ [x]) = (Spec.first_seen l ++ [x])%list.
Proof.
  induction l as [|y l IH]; intros Hx; simpl; [reflexivity|].
  rewrite IH by (intros H; apply Hx; now right).
  rewrite filter_app. simpl.
  destruct (String.eqb_spec x y) as [->|Hne]; [exfalso; apply Hx; now left|].
  reflexivity.
Qed.

(** A list without duplicates drawn from a list is no longer than it. *)
Lemma nodup_incl_length (l l' : list string) :
  NoDup l -> incl l l' -> (length l <= length l')%nat.
Proof. apply NoDup_incl_length. Qed.

End TipFacts.

(** X16: the two generic tips are the last two tips, in their order,
    after the tips of the keyword table, each of which is there once at
    most; a list of tips never has more than 11 tips. *)
Theorem X16_generic_tips_come_last (names : list string) :
  generate_alternatives names
  = (Spec.first_seen (flat_map Spec.matched_tips names)
     ++ [GENERIC_TIP_1; GENERIC_TIP_2])%list
  /\ incl (Spec.first_seen (flat_map Spec.matched_tips names))
       (map snd ALT_SUGGESTIONS)
  /\ (length (generate_alternatives names) <= 11)%nat.
Proof.
  destruct generic_tips_not_in_table as (H1 & H2 & Hne).
  assert (Hincl : incl (Spec.first_seen (flat_map Spec.matched_tips names))
                    (map snd ALT_SUGGESTIONS)).
  { intros tip H. apply (proj1 (first_seen_in _ _)) in H.
    exact (collected_in_table names tip H). }
  assert (Heq : generate_alternatives names
                = (Spec.first_seen (flat_map Spec.matched_tips names)
                   ++ [GENERIC_TIP_1; GENERIC_TIP_2])%list).
  { rewrite generate_alternatives_eq. unfold Spec.all_tips.
    change [GENERIC_TIP_1; GENERIC_TIP_2]
      with ([GENERIC_TIP_1] ++ [GENERIC_TIP_2])%list.
    rewrite !app_assoc.
    rewrite first_seen_app_fresh.
    - rewrite first_seen_app_fresh; [reflexivity|].
      intros H. apply H1. exact (collected_in_table names _ H).
    - intros H. apply in_app_iff in H. destruct H as [H|[H|[]]].
      + apply H2. exact (collected_in_table names _ H).
      + now apply Hne. }
  repeat split; [exact Heq | exact Hincl |].
  rewrite Heq, length_app. simpl.
  pose proof (nodup_incl_length _ _ (first_seen_nodup _) Hincl) as Hlen.
  rewrite length_map in Hlen. simpl in Hlen. lia.
Qed.

(* ===================================================================== *)
(** ** Saving and loading the entries                                     *)
(* ===================================================================== *)

(** X17: what the Add button saved comes back at the next login.  After
    an Add that was saved for a user whose account is in the file, a
    login with the password of the account succeeds from every session
    and loads the entries the session had after the Add, all days of
    it. *)
Theorem X17_saved_entries_come_back_at_login (_hash_pw : string -> string)
    (raw_text u p : string) (acct : App.account) (w : App.state) :
  Py.get (App.load_db (App.file w)) u = Some acct ->
  App.pw acct = _hash_pw p ->
  App.split_items raw_text <> [] ->
  Forall Spec.digits_within_limit (App.split_items raw_text) ->
  let w' := fst (App.add_to_today App.Written raw_text u w) in
  forall o remember_box s,
    let w'' := App.login _hash_pw o u p remember_box
                 (App.mkState (App.file w') s) in
    snd w'' = true
    /\ App.user (App.sess (fst w'')) = Some u
    /\ App.s_entries (App.sess (fst w'')) = App.s_entries (App.sess w').
Proof.
  intros Hacct Hpw Hne Hall w' o remember_box s. subst w'.
  destruct (proj2 (add_saves_session_entries raw_text u w Hall) Hne)
    as (users & acct' & Hfile & Hget & Hent & Hold & _).
  rewrite Hacct in Hold. destruct Hold as [Hpw' _].
  rewrite Hfile. unfold App.login. cbn [App.file App.load_db].
  rewrite Hget, Hpw', Hpw, String.eqb_refl. cbn [fst snd].
  unfold App.rerun. rewrite (entrypoint_logged _ u) by reflexivity.
  cbn [App.sess App.user App.s_entries]. repeat split. exact Hent.
Qed.

(** X17 for an account with no entries yet and a login from a session
    that starts a month later; any function can stand for the hash. *)
Lemma X17_saved_entries_come_back_at_login_witness :
  let w := App.mkState
             (Some [("asha"%string, App.mkAccount "s3cret" [] true)])
             (App.mkSession (Some "asha"%string) [] "2024-05-01") in
  let w' := fst (App.add_to_today App.Written "2 roti" "asha" w) in
  let w'' := App.login (fun pw => pw) App.Written "asha" "s3cret" false
               (App.mkState (App.file w') (App.new_session "2024-06-01")) in
  snd w'' = true
  /\ App.user (App.sess (fst w'')) = Some "asha"%string
  /\ App.s_entries (App.sess (fst w'')) = App.s_entries (App.sess w').
Proof.
  apply (X17_saved_entries_come_back_at_login (fun pw => pw) "2 roti" "asha"
           "s3cret" (App.mkAccount "s3cret" [] true)
           (App.mkState
              (Some [("asha"%string, App.mkAccount "s3cret" [] true)])
              (App.mkSession (Some "asha"%string) [] "2024-05-01"))).
  - reflexivity.
  - reflexivity.
  - intros H. vm_compute in H. discriminate H.
  - apply Forall_cons; [apply within_limit_check; vm_compute; reflexivity|].
    apply Forall_nil.
Defined.

(** X18: Clear today clears the day of the session and nothing else.
    For a user whose account is in the file, the day has no entry and a
    total of 0 afterwards, the other days of the session stay, and when
    the write succeeds the account holds the entries of the session. *)
Theorem X18_clear_today_clears_one_day (o : App.save_outcome) (u : string)
    (acct : App.account) (w : App.state) :
  Py.get (App.load_db (App.file w)) u = Some acct ->
  let w' := fst (App.clear_today o u w) in
  snd (App.clear_today o u w) = None
  /\ App.day_entries (App.sess w') = []
  /\ App.total_kcal (App.sess w') = 0
  /\ (forall d, App.today (App.sess w) <> d ->
                Py.get (App.s_entries (App.sess w')) d
                = Py.get (App.s_entries (App.sess w)) d)
  /\ (o = App.Written ->
      Py.get (App.load_db (App.file w')) u
      = Some (App.mkAccount (App.pw acct) (App.s_entries (App.sess w'))
                (App.remember acct))).
Proof.
  intros Hacct w'. subst w'. unfold App.clear_today. rewrite Hacct.
  cbn [fst snd App.sess App.file App.s_entries].
  assert (Hday : App.day_entries
                   (App.mkSession (App.user (App.sess w))
                      (App.set (App.s_entries (App.sess w))
                         (App.today (App.sess w)) [])
                      (App.today (App.sess w))) = []).
  { rewrite day_entries_eq. cbn [App.s_entries App.today].
    now rewrite get_set_same. }
  repeat split.
  - exact Hday.
  - unfold App.total_kcal. now rewrite Hday.
  - intros d Hd. now apply get_set_other.
  - intros ->. cbn [App.save_db App.load_db]. apply get_set_same.
Qed.

(** X18 for a session with a day of May and a day of June. *)
Lemma X18_clear_today_clears_one_day_witness :
  let days := [("2024-05-01"%string, [App.mkEntry "2 roti" "roti" 160]);
               ("2024-06-01"%string, [App.mkEntry "1 samosa" "samosa (1)" 250])] in
  let acct := App.mkAccount "h" days true in
  let w := App.mkState (Some [("asha"%string, acct)])
             (App.mkSession (Some "asha"%string) days "2024-06-01") in
  let w' := fst (App.clear_today App.Written "asha" w) in
  snd (App.clear_today App.Written "asha" w) = None
  /\ App.day_entries (App.sess w') = []
  /\ App.total_kcal (App.sess w') = 0
  /\ (forall d, App.today (App.sess w) <> d ->
                Py.get (App.s_entries (App.sess w')) d
                = Py.get (App.s_entries (App.sess w)) d)
  /\ (App.Written = App.Written ->
      Py.get (App.load_db (App.file w')) "asha"
      = Some (App.mkAccount (App.pw acct) (App.s_entries (App.sess w'))
                (App.remember acct))).
Proof.
  apply (X18_clear_today_clears_one_day App.Written "asha"
           (App.mkAccount "h"
              [("2024-05-01"%string, [App.mkEntry "2 roti" "roti" 160]);
               ("2024-06-01"%string, [App.mkEntry "1 samosa" "samosa (1)" 250])]
              true)).
  reflexivity.
Defined.
